(** * Test trend panel and data-model summary panel

    A shallow embedding of two UI components of the catalog front end:

    - [TestSummary.tsx]: the test-result trend chart (chart points, chart
      series, incident overlays, the reference marker and the result fetch);
    - [DataModelSummary]: the dashboard data-model summary panel (the stored
      details and the skeleton flag).

    JavaScript numbers are binary64 values, modelled by Rocq's primitive
    floats.  JavaScript objects used as records with computed keys are finite
    maps from property names to values.  React state is an explicit record;
    the result fetch threads it together with a trace of its outside effects. *)

From Stdlib Require Import ZArith Floats Ascii String.
From stdpp Require Import gmap strings list pretty sorting.

Open Scope string_scope.
Open Scope list_scope.

(** * JavaScript numbers and the global parsing functions *)

Module JS.

Definition number := float.

Definition isNaN (x : number) : bool := PrimFloat.is_nan x.

Definition isFinite (x : number) : bool :=
  negb (PrimFloat.is_nan x) && negb (PrimFloat.is_infinity x).

(** ToBoolean on a number: [NaN], [+0] and [-0] are falsy. *)
Definition toBoolean (x : number) : bool :=
  negb (PrimFloat.is_nan x || PrimFloat.is_zero x).

(** [a || b] on numbers. *)
Definition or (a b : number) : number := if toBoolean a then a else b.

(** [a || b] for a string that may be [undefined]: the empty string is
    falsy too. *)
Definition orString (a : option string) (b : string) : string :=
  match a with
  | Some s => if String.eqb s "" then b else s
  | None => b
  end.

(** The ASCII part of WhiteSpace and LineTerminator: TAB, LF, VT, FF, CR
    and SP.  Strings are byte strings here, so the non-ASCII blanks
    (NBSP, BOM, the Zs category) are not recognised. *)
Definition isWhiteSpace (c : ascii) : bool :=
  let n := nat_of_ascii c in
  ((9 <=? n)%nat && (n <=? 13)%nat) || (n =? 32)%nat.

Fixpoint trimStart (s : string) : string :=
  match s with
  | String c s' => if isWhiteSpace c then trimStart s' else s
  | EmptyString => EmptyString
  end.

(** The value of a digit in the given radix (letters count from ten,
    in either case). *)
Definition digitOf (radix : Z) (c : ascii) : option Z :=
  let n := nat_of_ascii c in
  let d :=
    if (48 <=? n)%nat && (n <=? 57)%nat then Some (Z.of_nat (n - 48))
    else if (97 <=? n)%nat && (n <=? 122)%nat then Some (Z.of_nat (n - 87))
    else if (65 <=? n)%nat && (n <=? 90)%nat then Some (Z.of_nat (n - 55))
    else None in
  match d with
  | Some v => if (v <? radix)%Z then Some v else None
  | None => None
  end.

(** The longest prefix of digits: the value read so far, the number of
    digits read and what is left of the string. *)
Fixpoint digits (radix acc : Z) (count : nat) (s : string) : Z * nat * string :=
  match s with
  | String c s' =>
      match digitOf radix c with
      | Some d => digits radix (radix * acc + d)%Z (S count) s'
      | None => (acc, count, s)
      end
  | EmptyString => (acc, count, s)
  end.

(** The binary64 value nearest to [m * 10 ^ e] (ties to even), with the
    sign [neg]; [m] is not negative. *)
Definition roundToNumber (neg : bool) (m e : Z) : number :=
  SF2Prim
    match m, e with
    | Zpos p, Zneg k =>
        SFdiv prec emax (S754_finite neg p 0) (S754_finite false (10 ^ k)%positive 0)
    | Zpos p, _ => binary_round prec emax neg (Z.to_pos (m * 10 ^ e)) 0
    | _, _ => S754_zero neg
    end.

(** ExponentPart, when one follows: [e] or [E], an optional sign and at
    least one digit.  Anything else is no exponent. *)
Definition exponentPart (s : string) : Z :=
  match s with
  | String c s' =>
      if (c =? "e")%char || (c =? "E")%char then
        let '(neg, s'') :=
          match s' with
          | String "+" t => (false, t)
          | String "-" t => (true, t)
          | _ => (false, s')
          end in
        let '(e, n, _) := digits 10 0 0 s'' in
        match n with
        | O => 0%Z
        | _ => if neg then (- e)%Z else e
        end
      else 0%Z
  | EmptyString => 0%Z
  end.

(** The longest prefix that is a StrUnsignedDecimalLiteral, as a number:
    [Infinity], or digits with an optional fraction and exponent. *)
Definition strUnsignedDecimalLiteral (neg : bool) (s : string) : number :=
  if String.prefix "Infinity" s then (if neg then neg_infinity else infinity)
  else
    let '(i, ni, s1) := digits 10 0 0 s in
    let '(m, nf, s2) :=
      match s1 with
      | String "." t =>
          let '(m, nf, s2) := digits 10 i 0 t in
          match ni, nf with
          | O, O => (i, O, s1)
          | _, _ => (m, nf, s2)
          end
      | _ => (i, O, s1)
      end in
    match ni, nf with
    | O, O => nan
    | _, _ => roundToNumber neg m (exponentPart s2 - Z.of_nat nf)
    end.

(** The global [parseFloat]. *)
Definition parseFloat (s : string) : number :=
  match trimStart s with
  | String "+" t => strUnsignedDecimalLiteral false t
  | String "-" t => strUnsignedDecimalLiteral true t
  | t => strUnsignedDecimalLiteral false t
  end.

(** The global [parseInt] called with one argument: radix ten, or sixteen
    after a [0x] or [0X] prefix. *)
Definition parseInt (s : string) : number :=
  let '(neg, t) :=
    match trimStart s with
    | String "+" t => (false, t)
    | String "-" t => (true, t)
    | t => (false, t)
    end in
  let '(radix, t) :=
    match t with
    | String "0" (String "x" t') | String "0" (String "X" t') => (16%Z, t')
    | _ => (10%Z, t)
    end in
  let '(v, n, _) := digits radix 0 0 t in
  match n with
  | O => nan
  | _ => roundToNumber neg v 0
  end.

(** [Math.round]: the nearest integer, a tie going up; what keeps the sign
    of a negative argument that rounds to zero.  A number with no fraction
    bits, an infinity and [NaN] come back unchanged. *)
Definition mathRound (x : number) : number :=
  match Prim2SF x with
  | S754_finite s m (Zneg k) =>
      let d := Zpos (2 ^ k) in
      let n := ((2 * (if s then Zneg m else Zpos m) + d) / (2 * d))%Z in
      SF2Prim (binary_normalize prec emax n 0 s)
  | _ => x
  end.

End JS.

Import JS.

(** * The generated entity types

    Only the properties the two components read are kept.  An optional
    property is an [option]: a property that is absent and one that holds
    [undefined] are not told apart. *)

Inductive TestCaseStatus := Aborted | Failed | Queued | Success.

Inductive ThreadTaskStatus := Closed | Open.

Module TestResultValue.
Record t := mk { name : option string; value : option string }.
End TestResultValue.

Module TestCaseResult.
Record t := mk {
  timestamp : number;
  testCaseStatus : option TestCaseStatus;
  testResultValue : option (list TestResultValue.t);
  passedRows : option number;
  failedRows : option number;
  passedRowsPercentage : option number;
  failedRowsPercentage : option number;
  incidentId : option string
}.
End TestCaseResult.

Module TaskDetails.
Record t := mk {
  testCaseResolutionStatusId : option string;
  status : option ThreadTaskStatus;
  closedAt : option number
}.
End TaskDetails.

Module Thread.
Record t := mk { id : string; task : option TaskDetails.t }.
End Thread.

Module TestCaseParameterValue.
Record t := mk { name : option string; value : option string }.
End TestCaseParameterValue.

(** The test case handed to the trend panel.  [rest] lists the names of its
    remaining properties (entityLink, testDefinition, testSuite, ...), which
    the panel does not read but which count when the object is tested for
    emptiness. *)
Module TestCase.
Record t := mk {
  name : option string;
  fullyQualifiedName : option string;
  description : option string;
  parameterValues : option (list TestCaseParameterValue.t);
  rest : list string
}.
End TestCase.

Module DateRangeObject.
Record t := mk {
  startTs : number;
  endTs : number;
  key : option string;
  title : option string
}.
End DateRangeObject.

(** * Values and objects *)

(** What a chart point or an element property holds. *)
Inductive Value :=
| VUndefined
| VNumber (n : number)
| VString (s : string)
| VThread (t : Thread.t).

(** An object with computed keys: a finite map from property names. *)
Abbreviation Object := (gmap string Value).

(** Reading a property: [undefined] when the object has none of that name. *)
Definition get (o : Object) (k : string) : Value := default VUndefined (o !! k).

Definition ofString (s : option string) : Value :=
  match s with Some s => VString s | None => VUndefined end.

Definition ofNumber (n : option number) : Value :=
  match n with Some n => VNumber n | None => VUndefined end.

Definition ofThread (t : option Thread.t) : Value :=
  match t with Some t => VThread t | None => VUndefined end.

(** The string a status is at run time. *)
Definition statusString (s : TestCaseStatus) : string :=
  match s with
  | Aborted => "Aborted"
  | Failed => "Failed"
  | Queued => "Queued"
  | Success => "Success"
  end.

(** [a === b] for a left operand that is a string or [undefined]. *)
Definition strictEquals (a : option string) (b : Value) : bool :=
  match a, b with
  | None, VUndefined => true
  | Some s, VString s' => String.eqb s s'
  | _, _ => false
  end.

(** The members of an object literal, in the order they are written. *)
Inductive PropertyDefinition :=
| KeyValue (k : string) (v : Value)
| Spread (o : option Object).

(** An object literal: members are evaluated left to right, a later one
    overwriting a property already set; spreading [undefined] adds nothing. *)
Definition objectLiteral (members : list PropertyDefinition) : Object :=
  foldl (fun o member =>
           match member with
           | KeyValue k v => <[k := v]> o
           | Spread (Some src) => src ∪ o
           | Spread None => o
           end) ∅ members.

(** * What the components import

    The bindings this development does not model: the branch of lodash's
    rounding that goes through the decimal spelling of a number, the
    conversion of a number to a string, and the colour constants. *)

Class Imports := {
  (** lodash [round] on a finite number with a precision other than zero:
      the number is spelt out, its exponent shifted by the precision,
      rounded by [Math.round] and shifted back. *)
  shiftRound : number -> Z -> number;
  (** Number-to-string conversion, as a template literal applies it. *)
  numberToString : number -> string;
  (** The series palette of the profiler constants. *)
  COLORS : list string;
  GREEN_3 : string;
  GREEN_3_OPACITY : string;
  RED_3 : string;
  RED_3_OPACITY : string
}.

(** * lodash *)

Module Lodash.

(** [round(number, precision)]: the shift is taken only for a precision
    other than zero and a finite number; everything else is [Math.round]. *)
Definition round `{Imports} (n : number) (precision : Z) : number :=
  if negb (precision =? 0)%Z && isFinite n then shiftRound n precision
  else mathRound n.

Definition isUndefined (v : Value) : bool :=
  match v with VUndefined => true | _ => false end.

(** [omitBy(object, predicate)]: the properties the predicate rejects. *)
Definition omitBy (predicate : Value -> bool) (o : Object) : Object :=
  filter (fun kv => predicate kv.2 = false) o.

(** [first(array)]. *)
Definition first {A} (l : list A) : option A := head l.

(** [isEmpty]: an array with no element, an object with no own property,
    [undefined]. *)
Class IsEmpty (A : Type) := isEmpty : A -> bool.

#[export] Instance isEmpty_array {A} : IsEmpty (list A) :=
  fun l => match l with [] => true | _ => false end.

#[export] Instance isEmpty_optional {A} `{IsEmpty A} : IsEmpty (option A) :=
  fun o => match o with Some a => isEmpty a | None => true end.

#[export] Instance isEmpty_object : IsEmpty Object :=
  fun o => bool_decide (dom o = ∅).

#[export] Instance isEmpty_TestCase : IsEmpty TestCase.t :=
  fun data =>
    match TestCase.name data, TestCase.fullyQualifiedName data,
          TestCase.description data, TestCase.parameterValues data,
          TestCase.rest data with
    | None, None, None, None, [] => true
    | _, _, _, _, _ => false
    end.

(** [isEqual] on two numbers: strict equality, or both [NaN]. *)
Definition isEqualNumber (a b : number) : bool :=
  PrimFloat.eqb a b || (PrimFloat.is_nan a && PrimFloat.is_nan b).

(** [isEqual] on two optional strings: both missing, or the same string. *)
Definition isEqualString (a b : option string) : bool :=
  match a, b with
  | Some x, Some y => String.eqb x y
  | None, None => true
  | _, _ => false
  end.

(** [isEqual] on two date ranges: the same properties, equal one by one. *)
Definition isEqual (a b : DateRangeObject.t) : bool :=
  isEqualNumber (DateRangeObject.startTs a) (DateRangeObject.startTs b)
  && isEqualNumber (DateRangeObject.endTs a) (DateRangeObject.endTs b)
  && isEqualString (DateRangeObject.key a) (DateRangeObject.key b)
  && isEqualString (DateRangeObject.title a) (DateRangeObject.title b).

End Lodash.

Import Lodash.

(** * The test trend panel ([TestSummary.tsx]) *)

Module TestSummary.

Record Series := { label : string; color : option string }.

Record ChartDataType := { information : list Series; data : list Object }.

(** An incident overlay: its two bounds on the time axis and its thread. *)
Record Incident := { x1 : Value; x2 : Value; task : Thread.t }.

(** A chart element: the component it instantiates, its key and its props. *)
Record Element := { type : string; key : option string; props : Object }.

Record LegendEntry := {
  legendValue : string;
  legendType : string;
  legendColor : option string
}.

Record LineChart := {
  points : list Object;
  reference : Element;
  legend : list LegendEntry;
  lines : list Element;
  incidents : list Element
}.

(** What the graph container shows. *)
Inductive Graph :=
| Loader
| Chart (c : LineChart)
| ErrorPlaceHolder (days : string).

(** The component state. *)
Record State := {
  results : list TestCaseResult.t;
  dateRangeObject : DateRangeObject.t;
  isLoading : bool;
  isGraphLoading : bool;
  selectedTimeRange : string
}.

Definition AxiosError := string.

(** How a promise settles. *)
Inductive Settled (A : Type) :=
| Fulfilled (a : A)
| Rejected (error : AxiosError).

Arguments Fulfilled {A} a.
Arguments Rejected {A} error.

(** The REST end point that lists the results of a test case. *)
Definition Api := string -> DateRangeObject.t -> Settled (list TestCaseResult.t).

(** What the panel does to the outside. *)
Inductive Effect :=
| GetListTestCaseResults (fqn : string) (params : DateRangeObject.t)
| ShowErrorToast (error : AxiosError).

(** A handler: it reads and updates the state and leaves a trace. *)
Definition Action (A : Type) := State -> A * State * list Effect.

Definition ret {A} (a : A) : Action A := fun st => (a, st, []).

Definition bind {A B} (m : Action A) (k : A -> Action B) : Action B :=
  fun st =>
    let '(a, st1, t1) := m st in
    let '(b, st2, t2) := k a st1 in
    (b, st2, t1 ++ t2).

#[local] Notation "x <- m ;; k" := (bind m (fun x => k))
  (at level 100, m at next level, right associativity).
#[local] Notation "m ;; k" := (bind m (fun _ => k))
  (at level 100, right associativity).

Definition setResults (r : list TestCaseResult.t) : Action unit :=
  fun st =>
    (tt, {| results := r; dateRangeObject := dateRangeObject st;
            isLoading := isLoading st; isGraphLoading := isGraphLoading st;
            selectedTimeRange := selectedTimeRange st |}, []).

Definition setIsLoading (b : bool) : Action unit :=
  fun st =>
    (tt, {| results := results st; dateRangeObject := dateRangeObject st;
            isLoading := b; isGraphLoading := isGraphLoading st;
            selectedTimeRange := selectedTimeRange st |}, []).

Definition setIsGraphLoading (b : bool) : Action unit :=
  fun st =>
    (tt, {| results := results st; dateRangeObject := dateRangeObject st;
            isLoading := isLoading st; isGraphLoading := b;
            selectedTimeRange := selectedTimeRange st |}, []).

(** Awaiting the REST call: the call is traced and its outcome returned. *)
Definition getListTestCaseResults (api : Api) (fqn : string)
    (params : DateRangeObject.t) : Action (Settled (list TestCaseResult.t)) :=
  fun st => (api fqn params, st, [GetListTestCaseResults fqn params]).

Definition showErrorToast (error : AxiosError) : Action unit :=
  fun st => (tt, st, [ShowErrorToast error]).

(** [pick(dateRangeObj, ['startTs', 'endTs'])]. *)
Definition pickRange (d : DateRangeObject.t) : DateRangeObject.t :=
  {| DateRangeObject.startTs := DateRangeObject.startTs d;
     DateRangeObject.endTs := DateRangeObject.endTs d;
     DateRangeObject.key := None;
     DateRangeObject.title := None |}.

(** [array.reduce] with the index handed to the callback. *)
Definition reduce {A B} (f : B -> A -> nat -> B) (init : B) (l : list A) : B :=
  foldl (fun acc ix => f acc ix.2 ix.1) init (imap pair l).

(** [task.task?.testCaseResolutionStatusId]. *)
Definition resolutionStatusId (task : Thread.t) : option string :=
  Thread.task task ≫= TaskDetails.testCaseResolutionStatusId.

(** How a parameter of the test case is shown: a SQL expression in an
    editor, any other parameter as text. *)
Inductive ParamView :=
| SqlExpressionView (key : option string) (title : string) (value : string)
| ParameterValueView (key : option string) (title : string) (value : option string).

(** The parameter part of the panel: the text parameters, or the note that
    there is none; the SQL expressions; the description. *)
Inductive ParametersBlock :=
| ParameterRows (rows : list ParamView)
| NoParameterAvailable.

Record ParamsContainer := {
  parametersBlock : option ParametersBlock;
  sqlBlock : option (list ParamView);
  descriptionBlock : option string
}.

(** The marker of a point of a series. *)
Record Dot := { fill : string; dotX : number; dotY : number }.

(** The upper part of the panel: its own loader, or the date picker with
    the graph container. *)
Inductive GraphArea :=
| PanelLoader
| GraphContainer (graph : Graph).

(** What the user does in the date picker. *)
Inductive Event :=
| DateRangeChange (value : DateRangeObject.t)
| SelectedTimeRange (range : string).

Definition setDateRangeObject (d : DateRangeObject.t) : Action unit :=
  fun st =>
    (tt, {| results := results st; dateRangeObject := d;
            isLoading := isLoading st; isGraphLoading := isGraphLoading st;
            selectedTimeRange := selectedTimeRange st |}, []).

Definition setSelectedTimeRange (range : string) : Action unit :=
  fun st =>
    (tt, {| results := results st; dateRangeObject := dateRangeObject st;
            isLoading := isLoading st; isGraphLoading := isGraphLoading st;
            selectedTimeRange := range |}, []).

(** The state of the first render: no results, both loading flags set, the
    default range and its title. *)
Definition initialState (initialRange : DateRangeObject.t) (title : string) : State :=
  {| results := [];
     dateRangeObject := initialRange;
     isLoading := true;
     isGraphLoading := true;
     selectedTimeRange := title |}.

Definition handleDateRangeChange (value : DateRangeObject.t) : Action unit :=
  fun st =>
    if negb (isEqual value (dateRangeObject st)) then setDateRangeObject value st
    else ret tt st.

Definition handleSelectedTimeRange (range : string) : Action unit :=
  setSelectedTimeRange range.

(** [param.name === 'sqlExpression']. *)
Definition isSqlQuery (param : TestCaseParameterValue.t) : bool :=
  match TestCaseParameterValue.name param with
  | Some name => String.eqb name "sqlExpression"
  | None => false
  end.

Definition parameterValuesWithSqlExpression (data : TestCase.t) :
    option (list TestCaseParameterValue.t) :=
  match TestCase.parameterValues data with
  | Some parameterValues =>
      if (0 <? length parameterValues)%nat
      then Some (List.filter isSqlQuery parameterValues)
      else None
  | None => None
  end.

Definition parameterValuesWithoutSqlExpression (data : TestCase.t) :
    option (list TestCaseParameterValue.t) :=
  match TestCase.parameterValues data with
  | Some parameterValues =>
      if (0 <? length parameterValues)%nat
      then Some (List.filter (fun param => negb (isSqlQuery param)) parameterValues)
      else None
  | None => None
  end.

(** A string that may be [undefined], as a template literal prints it. *)
Definition templateString (s : option string) : string := default "undefined" s.

Definition showParamsData (param : TestCaseParameterValue.t) : ParamView :=
  if isSqlQuery param then
    SqlExpressionView (TestCaseParameterValue.name param)
      (templateString (TestCaseParameterValue.name param) +:+ ":")
      (default "" (TestCaseParameterValue.value param))
  else
    ParameterValueView (TestCaseParameterValue.name param)
      (templateString (TestCaseParameterValue.name param) +:+ ":")
      (TestCaseParameterValue.value param).

Definition showParameters (data : TestCase.t) : bool :=
  match parameterValuesWithoutSqlExpression data with
  | Some without => negb (isEmpty without)
  | None => false
  end.

(** The parameter part of the render, shown unless only the graph is
    asked for. *)
Definition paramsContainer (data : TestCase.t) : ParamsContainer :=
  {| parametersBlock :=
       if showParameters data then
         Some (if negb (isEmpty (parameterValuesWithoutSqlExpression data)) then
                 ParameterRows
                   (map showParamsData
                      (default [] (parameterValuesWithoutSqlExpression data)))
               else NoParameterAvailable)
       else None;
     sqlBlock := map showParamsData <$> parameterValuesWithSqlExpression data;
     descriptionBlock :=
       match TestCase.description data with
       | Some description =>
           if String.eqb description "" then None else Some description
       | None => None
       end |}.

Section Component.
Context `{Imports}.

(** The number kept for one result value: the [value] of the reducer. *)
Definition value (curr : TestResultValue.t) : number :=
  JS.or (round (parseFloat (default "" (TestResultValue.value curr))) 2) 0%float.

(** The metric values of a result, keyed by name: the reducer of
    [chartData], run over [testResultValue] when the result has one. *)
Definition values (result : TestCaseResult.t) : option Object :=
  (fun testResultValue =>
     foldl (fun acc curr =>
              objectLiteral
                [Spread (Some acc);
                 KeyValue (default "value" (TestResultValue.name curr))
                   (VNumber (value curr))])
           ∅ testResultValue)
  <$> TestCaseResult.testResultValue result.

Definition percentage (p : option number) : Value :=
  match p with
  | None => VUndefined
  | Some p => VString (numberToString (round p 2) +:+ "%")
  end.

Definition metric (result : TestCaseResult.t) : Object :=
  objectLiteral
    [KeyValue "passedRows" (ofNumber (TestCaseResult.passedRows result));
     KeyValue "failedRows" (ofNumber (TestCaseResult.failedRows result));
     KeyValue "passedRowsPercentage"
       (percentage (TestCaseResult.passedRowsPercentage result));
     KeyValue "failedRowsPercentage"
       (percentage (TestCaseResult.failedRowsPercentage result))].

(** The object pushed for one result. *)
Definition chartPoint (entityThread : list Thread.t)
    (result : TestCaseResult.t) : Object :=
  objectLiteral
    [KeyValue "name" (VNumber (TestCaseResult.timestamp result));
     KeyValue "status"
       (ofString (statusString <$> TestCaseResult.testCaseStatus result));
     Spread (values result);
     Spread (Some (omitBy isUndefined (metric result)));
     KeyValue "incidentId" (ofString (TestCaseResult.incidentId result));
     KeyValue "task"
       (ofThread
          (List.find
             (fun task =>
                strictEquals (resolutionStatusId task)
                  (ofString (TestCaseResult.incidentId result)))
             entityThread))].

Definition chartData (entityThread : list Thread.t)
    (results : list TestCaseResult.t) : ChartDataType :=
  let chartData :=
    foldl (fun chartData result => chartData ++ [chartPoint entityThread result])
      [] results in
  {| information :=
       default []
         ((fun testResultValue =>
             imap (fun i info =>
                     {| label := default "" (TestResultValue.name info);
                        color := COLORS !! i |})
               testResultValue)
          <$> (head results ≫= TestCaseResult.testResultValue));
     data := reverse chartData |}.

Definition incidentData (entityThread : list Thread.t)
    (chartData : ChartDataType) : list Incident :=
  let data := data chartData in
  map (fun task =>
         let failedRows :=
           List.filter
             (fun chart =>
                strictEquals (resolutionStatusId task) (get chart "incidentId"))
             data in
         let x2 :=
           match Thread.task task ≫= TaskDetails.status with
           | Some Closed => ofNumber (Thread.task task ≫= TaskDetails.closedAt)
           | _ => VUndefined
           end in
         {| x1 := match first failedRows with
                  | Some chart => get chart "name"
                  | None => VUndefined
                  end;
            x2 := x2;
            task := task |})
    entityThread.

Definition customLegendPayLoad (chartData : ChartDataType) : list LegendEntry :=
  map (fun info =>
         {| legendValue := label info; legendType := "line"; legendColor := color info |})
    (information chartData)
  ++ [{| legendValue := "Incident"; legendType := "rect"; legendColor := Some RED_3 |}].

(** The handler that loads the results of a date range. *)
Definition fetchTestResults (api : Api) (data : TestCase.t)
    (dateRangeObj : DateRangeObject.t) : Action unit :=
  if isEmpty data then ret tt
  else
    setIsGraphLoading true ;;
    response <-
      getListTestCaseResults api
        (default "" (TestCase.fullyQualifiedName data)) (pickRange dateRangeObj) ;;
    match response with
    | Fulfilled chartData => setResults chartData
    | Rejected error => showErrorToast error
    end ;;
    setIsLoading false ;;
    setIsGraphLoading false.

(** The bounds of the reference area: the reducer of [referenceArea]. *)
Definition yValues (params : list TestCaseParameterValue.t) : Object :=
  reduce (fun acc curr i =>
            objectLiteral
              [Spread (Some acc);
               KeyValue ("y" +:+ pretty (i + 1)%nat)
                 (VNumber
                    (parseInt (orString (TestCaseParameterValue.value curr) "")))])
    ∅ params.

(** The threshold marker of the chart. *)
Definition referenceArea (data : TestCase.t) : Element :=
  let params := default [] (TestCase.parameterValues data) in
  if negb (length params =? 0)%nat && (length params <? 2)%nat then
    {| type := "ReferenceLine";
       key := None;
       props :=
         objectLiteral
           [KeyValue "label" (ofString (params !! 0%nat ≫= TestCaseParameterValue.name));
            KeyValue "stroke" (VString GREEN_3);
            KeyValue "strokeDasharray" (VString "4")] |}
  else
    {| type := "ReferenceArea";
       key := None;
       props :=
         objectLiteral
           [KeyValue "fill" (VString GREEN_3_OPACITY);
            KeyValue "ifOverflow" (VString "extendDomain");
            KeyValue "stroke" (VString GREEN_3);
            KeyValue "strokeDasharray" (VString "4");
            Spread (Some (yValues params))] |}.

(** The content of the graph container.  The key of a series line is a
    fresh identifier and is left out. *)
Definition getGraph (data : TestCase.t) (entityThread : list Thread.t)
    (st : State) : Graph :=
  if isGraphLoading st then Loader
  else
    let chartData := chartData entityThread (results st) in
    let incidentData := incidentData entityThread chartData in
    if negb (length (results st) =? 0)%nat then
      Chart
        {| points := TestSummary.data chartData;
           reference := referenceArea data;
           legend := customLegendPayLoad chartData;
           lines :=
             map (fun info =>
                    {| type := "Line";
                       key := None;
                       props :=
                         objectLiteral
                           [KeyValue "dataKey" (VString (label info));
                            KeyValue "stroke" (ofString (color info));
                            KeyValue "type" (VString "monotone")] |})
               (information chartData);
           incidents :=
             if (0 <? length incidentData)%nat then
               map (fun data =>
                      {| type := "ReferenceArea";
                         key := Some (Thread.id (task data));
                         props :=
                           objectLiteral
                             [KeyValue "fill" (VString RED_3_OPACITY);
                              KeyValue "ifOverflow" (VString "extendDomain");
                              KeyValue "x1" (x1 data);
                              KeyValue "x2" (x2 data)] |})
                 incidentData
             else [] |}
    else ErrorPlaceHolder (selectedTimeRange st).

(** The effect that follows the date range: it fetches the results of the
    range the state holds. *)
Definition dateRangeEffect (api : Api) (data : TestCase.t) : Action unit :=
  fun st => fetchTestResults api data (dateRangeObject st) st.

(** A change of the date range as the panel goes through it: the handler,
    and then the effect when the handler has replaced the range. *)
Definition onDateRangeChange (api : Api) (data : TestCase.t)
    (value : DateRangeObject.t) : Action unit :=
  fun st =>
    if negb (isEqual value (dateRangeObject st)) then
      (handleDateRangeChange value ;; dateRangeEffect api data) st
    else handleDateRangeChange value st.

Definition dispatch (api : Api) (data : TestCase.t) (e : Event) : Action unit :=
  match e with
  | DateRangeChange value => onDateRangeChange api data value
  | SelectedTimeRange range => handleSelectedTimeRange range
  end.

(** The panel after its first render, whose effect fetches the default
    range, and after the events that follow.  Each fetch is taken to have
    settled before the next event comes. *)
Fixpoint session (api : Api) (data : TestCase.t) (events : list Event) : Action unit :=
  match events with
  | [] => ret tt
  | e :: events => dispatch api data e ;; session api data events
  end.

Definition mounted (api : Api) (data : TestCase.t) (events : list Event) : Action unit :=
  dateRangeEffect api data ;; session api data events.

Section Dot.
Variable YELLOW_2 : string.

(** The marker of a point: green for a success, red for a failure, yellow
    for anything else; it is centred on the point. *)
Definition updatedDot (cx cy : option number) (payload : Object) : Dot :=
  let cx := default 0%float cx in
  let cy := default 0%float cy in
  let fill :=
    if strictEquals (Some (statusString Success)) (get payload "status")
    then Some GREEN_3 else None in
  let fill :=
    match fill with
    | Some fill => fill
    | None =>
        if strictEquals (Some (statusString Failed)) (get payload "status")
        then RED_3 else YELLOW_2
    end in
  {| fill := fill; dotX := (cx - 4)%float; dotY := (cy - 4)%float |}.

End Dot.

(** What the panel renders: the loader or the graph container, and the
    parameter part unless only the graph is asked for. *)
Definition graphArea (data : TestCase.t) (entityThread : list Thread.t)
    (st : State) : GraphArea :=
  if isLoading st then PanelLoader
  else GraphContainer (getGraph data entityThread st).

Definition paramsArea (data : TestCase.t) (showOnlyGraph : bool) :
    option ParamsContainer :=
  if showOnlyGraph then None else Some (paramsContainer data).

End Component.

End TestSummary.

(** * The data-model summary panel ([DataModelSummary]) *)

Module DataModelSummary.

Section Panel.
Context {DashboardDataModel : Type} `{IsEmpty DashboardDataModel}.

(** The props that the stored details and the skeleton depend on. *)
Record Props := { entityDetails : DashboardDataModel; isLoading : bool }.

(** [useState(entityDetails)]: the details stored by the first render. *)
Definition mount (props : Props) : DashboardDataModel := entityDetails props.

(** The update effect, run after a render with the given props. *)
Definition effect (props : Props) (dataModelDetails : DashboardDataModel) :
    DashboardDataModel :=
  if negb (isEmpty (entityDetails props)) then entityDetails props
  else dataModelDetails.

(** The details stored once the panel was mounted with [first] and then
    rendered again with each of [later], in turn. *)
Definition dataModelDetails (first : Props) (later : list Props) :
    DashboardDataModel :=
  foldl (fun stored props => effect props stored) (effect first (mount first)) later.

(** The [loading] flag handed to the skeleton. *)
Definition loading (props : Props) (dataModelDetails : DashboardDataModel) : bool :=
  isLoading props || isEmpty dataModelDetails.

End Panel.

Arguments Props DashboardDataModel : clear implicits.

End DataModelSummary.

(** * Vocabulary of the statements *)

Import TestSummary.

(** The state a handler leaves and the trace of what it did. *)
Definition stateAfter {A} (m : Action A) (st : State) : State := (m st).1.2.

Definition traceOf {A} (m : Action A) (st : State) : list Effect := (m st).2.

(** [a] was recorded before [b]: strictly, or possibly at the same time. *)
Definition earlier (strict : bool) (a b : TestCaseResult.t) : Prop :=
  (if strict then PrimFloat.ltb else PrimFloat.leb)
    (TestCaseResult.timestamp a) (TestCaseResult.timestamp b) = true.

(** The order the REST end point answers in, and the order of display. *)
Definition newestFirst (strict : bool) (results : list TestCaseResult.t) : Prop :=
  StronglySorted (flip (earlier strict)) results.

Definition oldestFirst (strict : bool) (results : list TestCaseResult.t) : Prop :=
  StronglySorted (earlier strict) results.

(** What a member sets for the property [k], if anything. *)
Definition memberLookup (k : string) (member : PropertyDefinition) : option Value :=
  match member with
  | KeyValue k' v => if decide (k' = k) then Some v else None
  | Spread (Some src) => src !! k
  | Spread None => None
  end.

(** The property a result value is kept under. *)
Definition valueKey (curr : TestResultValue.t) : string :=
  default "value" (TestResultValue.name curr).

(** The keys of [metric], and the properties written after the metric
    values of a result were spread. *)
Definition metricKeys : list string :=
  ["passedRows"; "failedRows"; "passedRowsPercentage"; "failedRowsPercentage"].

Definition laterKeys : list string := metricKeys ++ ["incidentId"; "task"].

(** The end bound computed for a thread. *)
Definition endBound (task : Thread.t) : Value :=
  match Thread.task task with
  | Some details =>
      match TaskDetails.status details with
      | Some Closed => ofNumber (TaskDetails.closedAt details)
      | _ => VUndefined
      end
  | None => VUndefined
  end.

(** The thread and the chart point refer to the same incident. *)
Definition matches (task : Thread.t) (chart : Object) : bool :=
  strictEquals (resolutionStatusId task) (get chart "incidentId").

(** The bound that a parameter gives. *)
Definition bound (p : TestCaseParameterValue.t) : Value :=
  VNumber (parseInt (orString (TestCaseParameterValue.value p) "")).

(** The incident overlays of the graph, when it is a chart. *)
Definition incidentsOf (g : Graph) : list Element :=
  match g with
  | Chart c => incidents c
  | _ => []
  end.

(** The thread is on the incident of the result:
    [task.task?.testCaseResolutionStatusId === result.incidentId]. *)
Definition refersTo (task : Thread.t) (result : TestCaseResult.t) : bool :=
  strictEquals (resolutionStatusId task) (ofString (TestCaseResult.incidentId result)).

(** The colour a status is drawn in. *)
Definition statusColour `{Imports} (YELLOW_2 : string)
    (status : option TestCaseStatus) : string :=
  match status with
  | Some Success => GREEN_3
  | Some Failed => RED_3
  | _ => YELLOW_2
  end.

(** The views of the two kinds of parameter. *)
Definition isTextView (view : ParamView) : Prop :=
  match view with
  | ParameterValueView _ _ _ => True
  | SqlExpressionView _ _ _ => False
  end.

Definition isEditorView (view : ParamView) : Prop :=
  match view with
  | SqlExpressionView key title _ =>
      key = Some "sqlExpression" /\ title = "sqlExpression:"
  | ParameterValueView _ _ _ => False
  end.

(** * A sample binding of the imports

    It serves to run the panel on concrete inputs.  The shift is the
    identity, which is what rounding to two decimals does to a number that
    has no more than two; a number is printed by its exact decimal
    expansion, which is its string conversion for an integer below 2^53 and
    for a short binary fraction.  The colours are placeholders. *)

Definition exactDecimal (n : number) : string :=
  match Prim2SF n with
  | S754_zero _ => "0"
  | S754_infinity s => if s then "-Infinity" else "Infinity"
  | S754_nan => "NaN"
  | S754_finite s m e =>
      let sign := if s then "-" else "" in
      match e with
      | Zneg k =>
          let scaled := (Zpos m * 5 ^ Zpos k)%Z in
          let whole := (scaled / 10 ^ Zpos k)%Z in
          let fraction := (scaled mod 10 ^ Zpos k)%Z in
          if (fraction =? 0)%Z then sign +:+ pretty whole
          else
            let padded :=
              pretty (10 ^ Zpos k + fraction)%Z in
            let fix strip (fuel : nat) (t : string) : string :=
              match fuel with
              | O => t
              | S fuel =>
                  match String.get (String.length t - 1) t with
                  | Some "0"%char => strip fuel (String.substring 0 (String.length t - 1) t)
                  | _ => t
                  end
              end in
            sign +:+ pretty whole +:+ "."
              +:+ strip (String.length padded)
                    (String.substring 1 (String.length padded - 1) padded)
      | _ => sign +:+ pretty (Zpos m * 2 ^ e)%Z
      end
  end.

Definition sampleImports : Imports := {|
  shiftRound := fun n _ => n;
  numberToString := exactDecimal;
  COLORS := ["#7147E8"; "#B02AAC"; "#1890FF"];
  GREEN_3 := "#48ca9e";
  GREEN_3_OPACITY := "#48ca9e30";
  RED_3 := "#f24822";
  RED_3_OPACITY := "#ff7c501a"
|}.

(** * Sample inputs *)

Definition sampleResult (timestamp : number)
    (testResultValue : option (list TestResultValue.t))
    (incidentId : option string) : TestCaseResult.t :=
  {| TestCaseResult.timestamp := timestamp;
     TestCaseResult.testCaseStatus := Some Failed;
     TestCaseResult.testResultValue := testResultValue;
     TestCaseResult.passedRows := Some 40%float;
     TestCaseResult.failedRows := None;
     TestCaseResult.passedRowsPercentage := Some 80%float;
     TestCaseResult.failedRowsPercentage := None;
     TestCaseResult.incidentId := incidentId |}.

Definition minMax (min max : string) : option (list TestResultValue.t) :=
  Some [TestResultValue.mk (Some "min") (Some min);
        TestResultValue.mk (Some "max") (Some max)].

(** Three results, newest first. *)
Definition sampleResults : list TestCaseResult.t :=
  [sampleResult 3000%float (minMax "1" "9.5") None;
   sampleResult 2000%float (minMax "2" "8") (Some "incident-1");
   sampleResult 1000%float (minMax "n/a" "7.25") None].

Definition sampleThread (id : string) (details : option TaskDetails.t) : Thread.t :=
  {| Thread.id := id; Thread.task := details |}.

(** A closed thread that refers to an incident of no result. *)
Definition strayThread : Thread.t :=
  sampleThread "thread-3"
    (Some (TaskDetails.mk (Some "incident-3") (Some Closed) (Some 2750%float))).

(** A closed thread on the incident of the second result, an open thread
    on an incident of no result, and the stray closed thread. *)
Definition sampleThreads : list Thread.t :=
  [sampleThread "thread-1"
     (Some (TaskDetails.mk (Some "incident-1") (Some Closed) (Some 2500%float)));
   sampleThread "thread-2"
     (Some (TaskDetails.mk (Some "incident-2") (Some Open) None));
   strayThread].

Definition sampleTestCase (fullyQualifiedName : option string)
    (parameterValues : option (list TestCaseParameterValue.t)) : TestCase.t :=
  {| TestCase.name := Some "column_values_between";
     TestCase.fullyQualifiedName := fullyQualifiedName;
     TestCase.description := None;
     TestCase.parameterValues := parameterValues;
     TestCase.rest := ["entityLink"; "testDefinition"; "testSuite"] |}.

(** The test case with no property at all. *)
Definition emptyTestCase : TestCase.t :=
  {| TestCase.name := None;
     TestCase.fullyQualifiedName := None;
     TestCase.description := None;
     TestCase.parameterValues := None;
     TestCase.rest := [] |}.

Definition sampleRange : DateRangeObject.t :=
  {| DateRangeObject.startTs := 1000%float;
     DateRangeObject.endTs := 3000%float;
     DateRangeObject.key := Some "last30days";
     DateRangeObject.title := Some "Last 30 days" |}.

Definition sampleState (results : list TestCaseResult.t) (loading : bool) : State :=
  {| results := results;
     dateRangeObject := sampleRange;
     isLoading := loading;
     isGraphLoading := loading;
     selectedTimeRange := "Last 30 days" |}.

(** An end point that answers every call with the sample results, and one
    that rejects every call. *)
Definition answering : Api := fun _ _ => Fulfilled sampleResults.

Definition failing : Api := fun _ _ => Rejected "Network Error".

(** A test case that has properties but no fully qualified name. *)
Definition unnamedTestCase : TestCase.t := sampleTestCase None None.

Definition oneParameter : TestCase.t :=
  sampleTestCase (Some "db.orders.total.column_values_between")
    (Some [TestCaseParameterValue.mk (Some "minValue") (Some "10")]).

Definition twoParameters : TestCase.t :=
  sampleTestCase (Some "db.orders.total.column_values_between")
    (Some [TestCaseParameterValue.mk (Some "minValue") (Some "10");
           TestCaseParameterValue.mk (Some "maxValue") (Some "20")]).

(** A result with no pass percentage and a result value called like it. *)
Definition shadowedResult : TestCaseResult.t :=
  {| TestCaseResult.timestamp := 1000%float;
     TestCaseResult.testCaseStatus := Some Success;
     TestCaseResult.testResultValue :=
       Some [TestResultValue.mk (Some "passedRowsPercentage") (Some "7")];
     TestCaseResult.passedRows := None;
     TestCaseResult.failedRows := None;
     TestCaseResult.passedRowsPercentage := None;
     TestCaseResult.failedRowsPercentage := None;
     TestCaseResult.incidentId := None |}.

(** A result with two values of one name. *)
Definition repeatedResult : TestCaseResult.t :=
  sampleResult 1000%float
    (Some [TestResultValue.mk (Some "min") (Some "1");
           TestResultValue.mk (Some "min") (Some "2")])
    None.

(** A result whose value is no finite number. *)
Definition unboundedResult : TestCaseResult.t :=
  sampleResult 1000%float
    (Some [TestResultValue.mk (Some "max") (Some "Infinity")]) None.

(** The data-model panel over plain objects: some details, the props of a
    render, and two renders that follow a first one, with details and with
    the details gone again. *)
Definition someDetails : Object := {["name" := VString "orders_model"]}.

Definition render (details : Object) (loading : bool) :
    DataModelSummary.Props Object :=
  {| DataModelSummary.entityDetails := details;
     DataModelSummary.isLoading := loading |}.

Definition sampleRenders : list (DataModelSummary.Props Object) :=
  [render someDetails false; render ∅ false].

(** Another range than the sample one, and what a user may do in the date
    picker. *)
Definition otherRange : DateRangeObject.t :=
  {| DateRangeObject.startTs := 2000%float;
     DateRangeObject.endTs := 3000%float;
     DateRangeObject.key := Some "last7days";
     DateRangeObject.title := Some "Last 7 days" |}.

Definition sampleEvents : list Event :=
  [DateRangeChange otherRange; SelectedTimeRange "Last 7 days";
   DateRangeChange otherRange].

(** The three sample results, from the newest to the oldest. *)
Definition newestResult : TestCaseResult.t :=
  sampleResult 3000%float (minMax "1" "9.5") None.

Definition incidentResult : TestCaseResult.t :=
  sampleResult 2000%float (minMax "2" "8") (Some "incident-1").

Definition oldestResult : TestCaseResult.t :=
  sampleResult 1000%float (minMax "n/a" "7.25") None.

(** The thread on the incident of the second result. *)
Definition incidentThread : Thread.t :=
  sampleThread "thread-1"
    (Some (TaskDetails.mk (Some "incident-1") (Some Closed) (Some 2500%float))).

(** A parameter with no value, and a test case with a SQL expression
    among its parameters. *)
Definition blankParameter : TestCaseParameterValue.t :=
  TestCaseParameterValue.mk (Some "minValue") None.

(** A test case with two parameters, the first of which has no value. *)
Definition blankBound : TestCase.t :=
  sampleTestCase (Some "db.orders.total.column_values_between")
    (Some [blankParameter;
           TestCaseParameterValue.mk (Some "maxValue") (Some "20")]).

Definition sqlTestCase : TestCase.t :=
  sampleTestCase (Some "db.orders.custom_sql")
    (Some [TestCaseParameterValue.mk (Some "sqlExpression") (Some "SELECT 1");
           TestCaseParameterValue.mk (Some "threshold") (Some "0")]).

(** * Theorems *)

(** ** The JavaScript functions at some inputs *)

Example parseFloat_examples :
  parseFloat "99.5" = 99.5%float /\
  parseFloat "  -3.5e2 rows" = (-350)%float /\
  parseFloat ".25" = 0.25%float /\
  parseFloat "7." = 7%float /\
  parseFloat "1e999" = infinity /\
  parseFloat "-Infinity" = neg_infinity /\
  parseFloat "" = nan /\
  parseFloat "n/a" = nan /\
  parseFloat "e5" = nan.
Proof. repeat split; reflexivity. Qed.

Example parseInt_examples :
  parseInt "10" = 10%float /\
  parseInt " 42px" = 42%float /\
  parseInt "0x1F" = 31%float /\
  parseInt "-7.9" = (-7)%float /\
  parseInt "" = nan /\
  parseInt "high" = nan.
Proof. repeat split; reflexivity. Qed.

Example mathRound_examples :
  mathRound 2.5%float = 3%float /\
  mathRound (-2.5)%float = (-2)%float /\
  mathRound (-0.25)%float = (-0)%float /\
  mathRound 7%float = 7%float /\
  mathRound infinity = infinity /\
  mathRound nan = nan.
Proof. repeat split; reflexivity. Qed.

Example exactDecimal_examples :
  exactDecimal 80%float = "80" /\
  exactDecimal 99.75%float = "99.75" /\
  exactDecimal (-0.5)%float = "-0.5" /\
  exactDecimal infinity = "Infinity".
Proof. repeat split; reflexivity. Qed.

(** * Object literals *)

(** Copying an object and setting one more property. *)
Lemma objectLiteral_extend (acc : Object) k v :
  objectLiteral [Spread (Some acc); KeyValue k v] = <[k := v]> acc.
Proof. cbn. now rewrite (right_id_L ∅ (∪)). Qed.

(** A property holds what the last member that sets it has put there. *)
Lemma objectLiteral_lookup members k :
  objectLiteral members !! k =
  foldl (fun found member =>
           match memberLookup k member with Some v => Some v | None => found end)
    None members.
Proof.
  unfold objectLiteral. rewrite <- (lookup_empty (M := gmap string) (A := Value) k).
  generalize (∅ : Object) as o.
  induction members as [|member members IH]; intros o; [reflexivity|].
  cbn [foldl]. rewrite IH. f_equal.
  destruct member as [k' v|[src|]]; cbn.
  - rewrite lookup_insert. now destruct (decide (k' = k)).
  - rewrite lookup_union. now destruct (src !! k), (o !! k).
  - reflexivity.
Qed.

(** * The chart points *)

Section TrendPanel.
Context `{Imports}.

Lemma push_all {A B} (f : A -> B) (l : list A) (acc : list B) :
  foldl (fun acc a => acc ++ [f a]) acc l = acc ++ (f <$> l).
Proof.
  revert acc. induction l as [|a l IH]; intros acc; cbn.
  - now rewrite app_nil_r.
  - rewrite IH. now rewrite <- app_assoc.
Qed.

(** The points are those of the results, last result first. *)
Lemma chartData_data entityThread results :
  data (chartData entityThread results) =
  chartPoint entityThread <$> reverse results.
Proof.
  unfold chartData; cbn [data]. rewrite push_all. cbn.
  now rewrite fmap_reverse.
Qed.

Lemma reverse_order {A} (R : relation A) (l : list A) :
  StronglySorted (flip R) l -> StronglySorted R (reverse l).
Proof.
  induction 1 as [|a l _ IH Hall]; [rewrite reverse_nil; constructor|].
  rewrite reverse_cons. apply StronglySorted_app_2; [|exact IH|repeat constructor].
  intros x1 x2 Hx1 Hx2. apply list_elem_of_singleton in Hx2 as ->.
  rewrite elem_of_reverse in Hx1. rewrite Forall_forall in Hall. exact (Hall _ Hx1).
Qed.

(** ** The metric values of a result *)

Lemma values_eq result :
  values result =
  foldl (fun acc curr => <[valueKey curr := VNumber (value curr)]> acc) ∅
  <$> TestCaseResult.testResultValue result.
Proof.
  unfold values. destruct (TestCaseResult.testResultValue result) as [l|]; [|reflexivity].
  cbn [fmap option_fmap option_map]. f_equal.
  generalize (∅ : Object) as acc.
  induction l as [|curr l IH]; intros acc; [reflexivity|].
  cbn [foldl]. rewrite objectLiteral_extend. apply IH.
Qed.

Lemma values_lookup_Some result (o : Object) (k : string) (v : Value) :
  values result = Some o -> o !! k = Some v ->
  exists curr : TestResultValue.t,
    curr ∈ default [] (TestCaseResult.testResultValue result) /\
    valueKey curr = k /\ v = VNumber (value curr).
Proof.
  rewrite values_eq. destruct (TestCaseResult.testResultValue result) as [l|]; [|discriminate].
  cbn. intros [= <-]. revert v.
  induction l as [|curr l IH] using rev_ind; intros v.
  - cbn. now rewrite lookup_empty.
  - rewrite foldl_snoc, lookup_insert. case_decide as Hk.
    + intros [= <-]. exists curr. split; [|done]. apply elem_of_app. right. now left.
    + intros Hv. destruct (IH v Hv) as (c & Hc & Hkey & Hval).
      exists c. split; [|done]. apply elem_of_app. now left.
Qed.

Lemma values_lookup_None result (k : string) :
  (forall curr : TestResultValue.t,
     curr ∈ default [] (TestCaseResult.testResultValue result) ->
     valueKey curr <> k) ->
  values result ≫= (fun o : Object => o !! k) = None.
Proof.
  intros Hfresh. destruct (values result) as [o|] eqn:Ho; [|reflexivity]. cbn.
  destruct (o !! k) as [v|] eqn:Hv; [|reflexivity].
  destruct (values_lookup_Some _ _ _ _ Ho Hv) as (curr & Hin & Hkey & _).
  now destruct (Hfresh curr Hin).
Qed.

(** ** The number kept for a result value *)

Lemma round_not_finite (n : number) precision :
  isFinite n = false -> round n precision = n.
Proof.
  intros Hn. unfold round. rewrite Hn, andb_false_r.
  unfold mathRound, Prim2SF. unfold isFinite in Hn.
  destruct (is_nan n); [reflexivity|].
  destruct (is_zero n); [reflexivity|].
  destruct (is_infinity n); [reflexivity|discriminate].
Qed.

Lemma or_not_NaN (a b : number) : isNaN b = false -> isNaN (JS.or a b) = false.
Proof.
  intros Hb. unfold JS.or, toBoolean, isNaN in *.
  destruct (is_nan a) eqn:Ha, (is_zero a); cbn [orb negb]; assumption.
Qed.

Lemma or_NaN (a b : number) : isNaN a = true -> JS.or a b = b.
Proof. unfold JS.or, toBoolean, isNaN. now intros ->. Qed.

Lemma value_not_NaN curr : isNaN (value curr) = false.
Proof. unfold value. now apply or_not_NaN. Qed.

Lemma value_of_NaN curr :
  isNaN (parseFloat (default "" (TestResultValue.value curr))) = true ->
  value curr = 0%float.
Proof.
  intros Hnan. unfold value. rewrite round_not_finite.
  - now apply or_NaN.
  - unfold isFinite. unfold isNaN in Hnan. now rewrite Hnan.
Qed.

(** ** The properties of a chart point *)

Lemma omitBy_lookup (o : Object) (k : string) :
  omitBy isUndefined o !! k =
  match o !! k with
  | Some v => if isUndefined v then None else Some v
  | None => None
  end.
Proof.
  unfold omitBy. rewrite map_lookup_filter.
  destruct (o !! k) as [v|]; [|reflexivity]. cbn.
  destruct (isUndefined v); case_guard; done.
Qed.

Lemma chartPoint_lookup entityThread result (k : string) :
  chartPoint entityThread result !! k =
  if decide ("task" = k) then
    Some (ofThread
            (List.find
               (fun task =>
                  strictEquals (resolutionStatusId task)
                    (ofString (TestCaseResult.incidentId result)))
               entityThread))
  else if decide ("incidentId" = k) then
    Some (ofString (TestCaseResult.incidentId result))
  else
    match omitBy isUndefined (metric result) !! k with
    | Some v => Some v
    | None =>
        match values result ≫= (fun o : Object => o !! k) with
        | Some v => Some v
        | None =>
            if decide ("status" = k) then
              Some (ofString (statusString <$> TestCaseResult.testCaseStatus result))
            else if decide ("name" = k) then
              Some (VNumber (TestCaseResult.timestamp result))
            else None
        end
    end.
Proof.
  unfold chartPoint. rewrite objectLiteral_lookup. cbn [foldl memberLookup].
  repeat case_decide; try reflexivity; try congruence;
    destruct (omitBy isUndefined (metric result) !! k); try reflexivity;
    destruct (values result) as [o|]; cbn; try reflexivity;
    destruct (o !! k); reflexivity.
Qed.

(** A point is stamped with the timestamp of its result, under [name],
    unless a result value of that name takes its place. *)
Lemma chartPoint_name entityThread result :
  (forall curr : TestResultValue.t,
     curr ∈ default [] (TestCaseResult.testResultValue result) ->
     valueKey curr <> "name") ->
  chartPoint entityThread result !! "name" =
  Some (VNumber (TestCaseResult.timestamp result)).
Proof.
  intros Hfresh. rewrite chartPoint_lookup, omitBy_lookup.
  rewrite (values_lookup_None result "name" Hfresh). reflexivity.
Qed.

(** The incident identifier of a point is that of its result. *)
Lemma chartPoint_incidentId entityThread result :
  get (chartPoint entityThread result) "incidentId" =
  ofString (TestCaseResult.incidentId result).
Proof. unfold get. rewrite chartPoint_lookup. reflexivity. Qed.

(** C1.  The chart data has one point per fetched result: the points of the
    results taken in reverse.  When the results come newest first (the
    order the REST end point answers in), the points therefore stand oldest
    first, strictly so when no two results share a timestamp.  Each point
    shows the timestamp of its result under [name], unless a result value
    called [name] has taken its place. *)
Theorem chartData_one_point_per_result_oldest_first entityThread results strict :
  newestFirst strict results ->
  length (data (chartData entityThread results)) = length results /\
  (exists sources,
     data (chartData entityThread results) = chartPoint entityThread <$> sources /\
     sources = reverse results /\
     oldestFirst strict sources) /\
  (forall result : TestCaseResult.t,
     (forall curr : TestResultValue.t,
        curr ∈ default [] (TestCaseResult.testResultValue result) ->
        valueKey curr <> "name") ->
     chartPoint entityThread result !! "name" =
     Some (VNumber (TestCaseResult.timestamp result))).
Proof.
  intros Hnewest. rewrite chartData_data. split; [|split].
  - now rewrite length_fmap, length_reverse.
  - exists (reverse results). repeat split. now apply reverse_order.
  - intros result. apply chartPoint_name.
Qed.

Lemma elem_of_metricKeys (k : string) :
  k ∈ metricKeys <->
  k = "passedRows" \/ k = "failedRows" \/
  k = "passedRowsPercentage" \/ k = "failedRowsPercentage".
Proof. unfold metricKeys. rewrite !elem_of_cons, elem_of_nil. tauto. Qed.

Lemma metric_lookup result :
  metric result !! "passedRows" = Some (ofNumber (TestCaseResult.passedRows result)) /\
  metric result !! "failedRows" = Some (ofNumber (TestCaseResult.failedRows result)) /\
  metric result !! "passedRowsPercentage" =
    Some (percentage (TestCaseResult.passedRowsPercentage result)) /\
  metric result !! "failedRowsPercentage" =
    Some (percentage (TestCaseResult.failedRowsPercentage result)).
Proof. repeat split; reflexivity. Qed.

(** One of the four keys of [metric]: the point carries its value when that
    is defined, and whatever a result value of that name has left there
    otherwise. *)
Lemma chartPoint_metric_key entityThread result (k : string) (v : Value) :
  k ∈ metricKeys -> metric result !! k = Some v ->
  chartPoint entityThread result !! k =
  if isUndefined v then values result ≫= (fun o : Object => o !! k) else Some v.
Proof.
  intros Hk Hv. rewrite chartPoint_lookup, omitBy_lookup, Hv.
  assert ("task" <> k /\ "incidentId" <> k /\ "status" <> k /\ "name" <> k)
    as (? & ? & ? & ?).
  { apply elem_of_metricKeys in Hk. destruct Hk as [->|[->|[->| ->]]]; done. }
  rewrite !decide_False by done.
  destruct (isUndefined v); [|reflexivity].
  now destruct (values result ≫= (fun o : Object => o !! k)).
Qed.

(** C6, amended.  A row count or a percentage that is undefined adds no
    property to the chart point: under that key the point holds only what a
    result value of the same name has put there (a number), so the key is
    absent when no result value bears that name, and it never holds
    [undefined].  A row count that is defined is carried as it is; a
    percentage that is defined is carried rounded to two decimals, as a
    string that ends in the percent sign. *)
Theorem chartPoint_undefined_metric_adds_no_key entityThread result :
  let point := chartPoint entityThread result in
  let named (k : string) := values result ≫= (fun o : Object => o !! k) in
  point !! "passedRows" =
    match TestCaseResult.passedRows result with
    | Some n => Some (VNumber n)
    | None => named "passedRows"
    end /\
  point !! "failedRows" =
    match TestCaseResult.failedRows result with
    | Some n => Some (VNumber n)
    | None => named "failedRows"
    end /\
  point !! "passedRowsPercentage" =
    match TestCaseResult.passedRowsPercentage result with
    | Some p => Some (VString (numberToString (round p 2) +:+ "%"))
    | None => named "passedRowsPercentage"
    end /\
  point !! "failedRowsPercentage" =
    match TestCaseResult.failedRowsPercentage result with
    | Some p => Some (VString (numberToString (round p 2) +:+ "%"))
    | None => named "failedRowsPercentage"
    end /\
  (forall k : string, k ∈ metricKeys ->
     point !! k <> Some VUndefined /\
     ((forall curr : TestResultValue.t,
         curr ∈ default [] (TestCaseResult.testResultValue result) ->
         valueKey curr <> k) ->
      named k = None)).
Proof.
  intros point named. destruct (metric_lookup result) as (Hpr & Hfr & Hpp & Hfp).
  assert (Hkeys : forall (k : string) (v : Value),
             k ∈ metricKeys -> metric result !! k = Some v ->
             point !! k = if isUndefined v then named k else Some v).
  { intros k v. apply chartPoint_metric_key. }
  split; [|split; [|split; [|split]]].
  - rewrite (Hkeys "passedRows" _ ltac:(apply elem_of_metricKeys; tauto) Hpr).
    now destruct (TestCaseResult.passedRows result).
  - rewrite (Hkeys "failedRows" _ ltac:(apply elem_of_metricKeys; tauto) Hfr).
    now destruct (TestCaseResult.failedRows result).
  - rewrite (Hkeys "passedRowsPercentage" _ ltac:(apply elem_of_metricKeys; tauto) Hpp).
    now destruct (TestCaseResult.passedRowsPercentage result).
  - rewrite (Hkeys "failedRowsPercentage" _ ltac:(apply elem_of_metricKeys; tauto) Hfp).
    now destruct (TestCaseResult.failedRowsPercentage result).
  - intros k Hk. split; [|apply values_lookup_None].
    assert (exists v, metric result !! k = Some v) as [v Hv].
    { pose proof Hk as Hk'. apply elem_of_metricKeys in Hk'.
      destruct Hk' as [->|[->|[->| ->]]]; eauto. }
    rewrite (Hkeys k v Hk Hv). destruct v; cbn; try discriminate.
    subst named. cbn. destruct (values result) as [o|] eqn:Ho; cbn; [|discriminate].
    intros Hu. destruct (values_lookup_Some _ _ _ _ Ho Hu) as (_ & _ & _ & [=]).
Qed.

(** C9, amended.  The number kept for a result value is never [NaN]: a
    value string that is missing or that parses to [NaN], and a rounding
    that yields [NaN], give zero.  These numbers are all that the metric
    values of a result hold, each under the name of its result value, and
    the chart point carries them under every name that no later property
    overwrites.  (The number can be an infinity: see the counterexample.) *)
Theorem metric_value_never_NaN entityThread result :
  (forall curr : TestResultValue.t,
     isNaN (value curr) = false /\
     (TestResultValue.value curr = None -> value curr = 0%float) /\
     (isNaN (parseFloat (default "" (TestResultValue.value curr))) = true ->
      value curr = 0%float) /\
     (isNaN (round (parseFloat (default "" (TestResultValue.value curr))) 2) = true ->
      value curr = 0%float)) /\
  (forall (o : Object) (k : string) (v : Value),
     values result = Some o -> o !! k = Some v ->
     (exists curr : TestResultValue.t,
        curr ∈ default [] (TestCaseResult.testResultValue result) /\
        valueKey curr = k /\ v = VNumber (value curr)) /\
     (k ∉ laterKeys -> chartPoint entityThread result !! k = Some v)).
Proof.
  split.
  - intros curr. repeat split.
    + apply value_not_NaN.
    + intros Hmissing. apply value_of_NaN. now rewrite Hmissing.
    + apply value_of_NaN.
    + intros Hnan. unfold value. now apply or_NaN.
  - intros o k v Ho Hv. split; [now apply (values_lookup_Some result o)|].
    intros Hk. rewrite chartPoint_lookup, omitBy_lookup.
    assert ("task" <> k /\ "incidentId" <> k /\ metric result !! k = None)
      as (? & ? & Hmetric).
    { unfold laterKeys, metricKeys in Hk. cbn [app] in Hk.
      rewrite !not_elem_of_cons in Hk.
      destruct Hk as (? & ? & ? & ? & ? & ? & _). repeat split; try done.
      unfold metric. rewrite objectLiteral_lookup. cbn [foldl memberLookup].
      now rewrite !decide_False by done. }
    rewrite !decide_False by done. rewrite Hmetric, Ho. cbn. now rewrite Hv.
Qed.

(** C8, amended.  The series are read off the first result alone: one per
    result value, in their order, labelled with the name of the value (the
    empty string when it has none) and coloured with the palette entry at
    its index (none past the end of the palette).  No result, or a first
    result with no values, gives no series. *)
Theorem information_from_first_result entityThread results :
  information (chartData entityThread results) =
  match results with
  | [] => []
  | first :: _ =>
      imap (fun i info =>
              {| label := default "" (TestResultValue.name info);
                 color := COLORS !! i |})
        (default [] (TestCaseResult.testResultValue first))
  end /\
  (forall first rest, results = first :: rest ->
     length (information (chartData entityThread results)) =
       length (default [] (TestCaseResult.testResultValue first)) /\
     label <$> information (chartData entityThread results) =
       (fun info => default "" (TestResultValue.name info))
       <$> default [] (TestCaseResult.testResultValue first)).
Proof.
  assert (Heq : information (chartData entityThread results) =
    match results with
    | [] => []
    | first :: _ =>
        imap (fun i info =>
                {| label := default "" (TestResultValue.name info);
                   color := COLORS !! i |})
          (default [] (TestCaseResult.testResultValue first))
    end).
  { unfold chartData; cbn [information]. destruct results as [|first rest]; [reflexivity|].
    cbn. now destruct (TestCaseResult.testResultValue first). }
  split; [exact Heq|]. intros first rest ->. rewrite Heq. split.
  - apply length_imap.
  - apply list_eq. intros i. rewrite !list_lookup_fmap, list_lookup_imap.
    now destruct (default [] (TestCaseResult.testResultValue first) !! i).
Qed.

End TrendPanel.

(** * The incident overlays *)

Section Incidents.
Context `{Imports}.

Lemma map_fmap {A B} (f : A -> B) (l : list A) : map f l = f <$> l.
Proof. reflexivity. Qed.

Lemma incidentData_lookup entityThread chartData (i : nat) :
  incidentData entityThread chartData !! i =
  (fun task =>
     {| x1 := match first (List.filter (matches task) (data chartData)) with
              | Some chart => get chart "name"
              | None => VUndefined
              end;
        x2 := endBound task;
        task := task |})
  <$> entityThread !! i.
Proof.
  unfold incidentData. rewrite map_fmap, list_lookup_fmap.
  destruct (entityThread !! i) as [task|]; [|reflexivity]. cbn. f_equal. f_equal.
  unfold endBound. destruct (Thread.task task) as [details|]; [|reflexivity].
  cbn. now destruct (TaskDetails.status details) as [[]|].
Qed.

(** C7.  The end bound of the overlay of a thread is the [closedAt] of its
    task when the status of the task is [Closed], and [undefined] when the
    thread has no task or its task has another status or none. *)
Theorem incident_end_bound entityThread chartData (i : nat) (thread : Thread.t) :
  entityThread !! i = Some thread ->
  exists incident,
    incidentData entityThread chartData !! i = Some incident /\
    task incident = thread /\
    (forall details,
       Thread.task thread = Some details ->
       TaskDetails.status details = Some Closed ->
       x2 incident = ofNumber (TaskDetails.closedAt details)) /\
    ((forall details,
        Thread.task thread = Some details ->
        TaskDetails.status details <> Some Closed) ->
     x2 incident = VUndefined).
Proof.
  intros Hi. rewrite incidentData_lookup, Hi. cbn. eexists. split; [reflexivity|].
  cbn. split; [reflexivity|]. unfold endBound. split.
  - intros details -> ->. reflexivity.
  - intros Hopen. destruct (Thread.task thread) as [details|]; [|reflexivity].
    specialize (Hopen details eq_refl).
    now destruct (TaskDetails.status details) as [[]|].
Qed.

Lemma filter_none {A} (f : A -> bool) (l : list A) :
  (forall a, a ∈ l -> f a = false) -> List.filter f l = [].
Proof.
  induction l as [|a l IH]; intros Hall; [reflexivity|]. cbn.
  rewrite (Hall a) by now left. apply IH. intros b Hb. apply Hall. now right.
Qed.

(** C3, amended.  A thread whose resolution-status identifier equals the
    incident identifier of no chart point gets an overlay with an undefined
    start bound.  The overlay is still handed to the chart: whenever the
    chart is shown, it holds a reference area for that thread, with [x1]
    undefined and [x2] the end bound of the thread. *)
Theorem unmatched_incident_has_no_start data entityThread st (i : nat) (thread : Thread.t) :
  entityThread !! i = Some thread ->
  (forall chart : Object,
     chart ∈ TestSummary.data (chartData entityThread (results st)) ->
     matches thread chart = false) ->
  (exists incident,
     incidentData entityThread (chartData entityThread (results st)) !! i =
       Some incident /\
     task incident = thread /\ x1 incident = VUndefined) /\
  (isGraphLoading st = false -> results st <> [] ->
   exists c element,
     getGraph data entityThread st = Chart c /\
     incidents c !! i = Some element /\
     type element = "ReferenceArea" /\
     key element = Some (Thread.id thread) /\
     props element !! "x1" = Some VUndefined /\
     props element !! "x2" = Some (endBound thread)).
Proof.
  intros Hi Hnone.
  pose proof (incidentData_lookup entityThread
                (chartData entityThread (results st)) i) as Hlookup.
  rewrite Hi in Hlookup. cbn [fmap option_fmap option_map] in Hlookup.
  rewrite (filter_none _ _ Hnone) in Hlookup. cbn [first head] in Hlookup. split.
  - eexists. split; [exact Hlookup|]. split; reflexivity.
  - intros Hloading Hresults. unfold getGraph. rewrite Hloading.
    destruct (results st) as [|r rs] eqn:Hrs; [done|]. cbn [length Nat.eqb negb].
    eexists _, _. split; [reflexivity|]. cbn [incidents].
    assert ((0 <? length (incidentData entityThread
                            (chartData entityThread (r :: rs))))%nat = true) as ->.
    { apply Nat.ltb_lt. apply lookup_lt_Some in Hlookup. lia. }
    rewrite map_fmap, list_lookup_fmap, Hlookup. cbn. split; [reflexivity|].
    repeat split.
Qed.

End Incidents.

(** * The reference marker *)

Section Reference.
Context `{Imports}.

Lemma reduce_snoc {A B} (f : B -> A -> nat -> B) (init : B) (l : list A) (a : A) :
  reduce f init (l ++ [a]) = f (reduce f init l) a (length l).
Proof.
  unfold reduce. rewrite imap_app, foldl_app. cbn. now rewrite Nat.add_0_r.
Qed.

Lemma yValues_snoc params p :
  yValues (params ++ [p]) =
  <["y" +:+ pretty (length params + 1)%nat := bound p]> (yValues params).
Proof. unfold yValues. rewrite reduce_snoc. now rewrite objectLiteral_extend. Qed.

(** The i-th parameter, counted from one, gives the bound [y]i; there is
    no other bound. *)
Lemma yValues_lookup params (j : nat) :
  yValues params !! ("y" +:+ pretty (j + 1)%nat) = bound <$> params !! j.
Proof.
  induction params as [|p params IH] using rev_ind.
  - reflexivity.
  - rewrite yValues_snoc, lookup_insert. case_decide as Hkey.
    + assert (length params + 1 = j + 1)%nat as Heq
        by (apply (inj pretty); now injection Hkey).
      assert (j = length params) as -> by lia.
      now rewrite lookup_app_r, Nat.sub_diag by lia.
    + rewrite IH. destruct (decide (j < length params)%nat) as [Hlt|Hge].
      * now rewrite lookup_app_l by lia.
      * assert (j <> length params) by (intros ->; now apply Hkey).
        rewrite !lookup_ge_None_2; [reflexivity| |lia].
        rewrite length_app. cbn. lia.
Qed.

Lemma yValues_keys params (k : string) :
  is_Some (yValues params !! k) ->
  exists j : nat, (j < length params)%nat /\ k = "y" +:+ pretty (j + 1)%nat.
Proof.
  induction params as [|p params IH] using rev_ind.
  - intros [v Hv]. discriminate.
  - rewrite yValues_snoc, lookup_insert, length_app. cbn. case_decide as Hkey.
    + intros _. exists (length params). split; [lia|done].
    + intros Hk. destruct (IH Hk) as (j & Hj & ->). exists j. split; [lia|done].
Qed.

(** The element the renderer returns, by the number of parameters: the
    area branch is taken with no parameter and with two or more, the line
    branch with exactly one. *)
Lemma referenceArea_by_parameter_count data :
  let params := default [] (TestCase.parameterValues data) in
  (params = [] ->
   referenceArea data =
   {| type := "ReferenceArea";
      key := None;
      props :=
        objectLiteral
          [KeyValue "fill" (VString GREEN_3_OPACITY);
           KeyValue "ifOverflow" (VString "extendDomain");
           KeyValue "stroke" (VString GREEN_3);
           KeyValue "strokeDasharray" (VString "4")] |}) /\
  (forall p, params = [p] ->
   referenceArea data =
   {| type := "ReferenceLine";
      key := None;
      props :=
        objectLiteral
          [KeyValue "label" (ofString (TestCaseParameterValue.name p));
           KeyValue "stroke" (VString GREEN_3);
           KeyValue "strokeDasharray" (VString "4")] |}) /\
  (forall p1 p2 rest, params = p1 :: p2 :: rest ->
   type (referenceArea data) = "ReferenceArea" /\
   props (referenceArea data) !! "y1" = Some (bound p1) /\
   props (referenceArea data) !! "y2" = Some (bound p2) /\
   (forall j : nat,
      props (referenceArea data) !! ("y" +:+ pretty (j + 1)%nat) =
      bound <$> params !! j)).
Proof.
  intros params. unfold referenceArea. fold params. split; [|split].
  - intros ->. cbn. now rewrite (left_id_L ∅ (∪)).
  - intros p ->. reflexivity.
  - intros p1 p2 rest Hparams.
    assert (Hy : forall j : nat,
               objectLiteral
                 [KeyValue "fill" (VString GREEN_3_OPACITY);
                  KeyValue "ifOverflow" (VString "extendDomain");
                  KeyValue "stroke" (VString GREEN_3);
                  KeyValue "strokeDasharray" (VString "4");
                  Spread (Some (yValues params))]
               !! ("y" +:+ pretty (j + 1)%nat) = bound <$> params !! j).
    { intros j. rewrite objectLiteral_lookup. cbn [foldl memberLookup].
      rewrite yValues_lookup. destruct (params !! j); [reflexivity|].
      cbn. now rewrite !decide_False by done. }
    rewrite Hparams in *. cbn [length Nat.eqb Nat.ltb Nat.leb negb andb props type].
    split; [reflexivity|]. split; [exact (Hy 0%nat)|]. split; [exact (Hy 1%nat)|exact Hy].
Qed.

(** Whenever the number of parameters is not one the renderer returns the
    area, and the area holds the bound of every parameter. *)
Lemma referenceArea_bounds data :
  let params := default [] (TestCase.parameterValues data) in
  length params <> 1%nat ->
  type (referenceArea data) = "ReferenceArea" /\
  (forall j : nat,
     props (referenceArea data) !! ("y" +:+ pretty (j + 1)%nat) =
     bound <$> params !! j).
Proof.
  intros params Hlength. unfold referenceArea. fold params.
  assert (negb (length params =? 0)%nat && (length params <? 2)%nat = false)
    as -> by (destruct params as [|p1 [|p2 rest]]; [reflexivity|done|reflexivity]).
  split; [reflexivity|]. intros j. cbn [props].
  rewrite objectLiteral_lookup. cbn [foldl memberLookup].
  rewrite yValues_lookup. destruct (params !! j); [reflexivity|].
  cbn. now rewrite !decide_False by done.
Qed.

(** C2.  With exactly one parameter the renderer yields a reference line
    and no area, but the line is given no position.  Its properties are
    the label (the name of the parameter), the stroke and the dash pattern
    and nothing else: it has no [y] and no [x], whatever the value of the
    parameter, which is not read.  The area of two or more parameters does
    read the values: the same parameter followed by another one gives the
    bound [y1], the integer parsed from its value. *)
Theorem referenceLine_is_given_no_position data p :
  TestCase.parameterValues data = Some [p] ->
  type (referenceArea data) = "ReferenceLine" /\
  props (referenceArea data) !! "label" =
    Some (ofString (TestCaseParameterValue.name p)) /\
  props (referenceArea data) !! "y" = None /\
  props (referenceArea data) !! "x" = None /\
  (forall k : string,
     is_Some (props (referenceArea data) !! k) ->
     k = "label" \/ k = "stroke" \/ k = "strokeDasharray") /\
  (forall data' p2 rest,
     TestCase.parameterValues data' = Some (p :: p2 :: rest) ->
     type (referenceArea data') = "ReferenceArea" /\
     props (referenceArea data') !! "y1" = Some (bound p) /\
     props (referenceArea data') !! "y2" = Some (bound p2)).
Proof.
  intros Hdata.
  destruct (referenceArea_by_parameter_count data) as (_ & Hone & _).
  rewrite Hdata in Hone. rewrite (Hone p eq_refl). cbn [type props].
  split; [reflexivity|]. split; [reflexivity|]. split; [reflexivity|].
  split; [reflexivity|]. split.
  - intros k. rewrite objectLiteral_lookup. cbn [foldl memberLookup].
    destruct (decide ("strokeDasharray" = k)) as [<-|_]; [auto|].
    destruct (decide ("stroke" = k)) as [<-|_]; [auto|].
    destruct (decide ("label" = k)) as [<-|_]; [auto|].
    intros [v Hv]. discriminate Hv.
  - intros data' p2 rest Hdata'.
    destruct (referenceArea_bounds data') as (Htype & Hbounds).
    + rewrite Hdata'. discriminate.
    + rewrite Hdata' in Hbounds. split; [exact Htype|].
      split; [exact (Hbounds 0%nat)|exact (Hbounds 1%nat)].
Qed.

End Reference.

(** * The result fetch *)

Section Fetch.
Context `{Imports}.

(** C4, amended.  When the test case handed to the panel is empty (lodash
    [isEmpty]: it has no property at all), the fetch returns at once: it
    makes no REST call, shows nothing, and leaves the results and both
    loading flags as they were.  For any other test case the REST call is
    issued, under the fully qualified name of the test case or, when that
    is missing, under the empty string. *)
Theorem fetch_short_circuits_on_empty_data api data dateRangeObj st :
  (isEmpty data = true ->
   fetchTestResults api data dateRangeObj st = (tt, st, [])) /\
  (isEmpty data = false ->
   exists later,
     traceOf (fetchTestResults api data dateRangeObj) st =
     GetListTestCaseResults (default "" (TestCase.fullyQualifiedName data))
       (pickRange dateRangeObj) :: later).
Proof.
  unfold traceOf, fetchTestResults. split; intros ->; [reflexivity|].
  unfold bind, getListTestCaseResults.
  destruct (api _ _); cbn; eexists; reflexivity.
Qed.

(** C5.  A fetch that was issued ends with both loading flags cleared,
    however the REST call settles.  When the call is rejected, the error is
    caught and shown as an error toast and the stored results are the ones
    from before; they are replaced, by the results received, only when the
    call is fulfilled (and then no toast is shown). *)
Theorem fetch_failure_keeps_results api data dateRangeObj st :
  isEmpty data = false ->
  let fqn := default "" (TestCase.fullyQualifiedName data) in
  let call := GetListTestCaseResults fqn (pickRange dateRangeObj) in
  let after := stateAfter (fetchTestResults api data dateRangeObj) st in
  let trace := traceOf (fetchTestResults api data dateRangeObj) st in
  isLoading after = false /\
  isGraphLoading after = false /\
  (forall error,
     api fqn (pickRange dateRangeObj) = Rejected error ->
     results after = results st /\ trace = [call; ShowErrorToast error]) /\
  (forall chartData,
     api fqn (pickRange dateRangeObj) = Fulfilled chartData ->
     results after = chartData /\ trace = [call]).
Proof.
  intros Hdata fqn call after trace.
  unfold after, trace, stateAfter, traceOf, fetchTestResults. rewrite Hdata.
  unfold bind, getListTestCaseResults. fold fqn.
  destruct (api fqn (pickRange dateRangeObj)) as [chartData|error]; cbn;
    repeat split; intros; simplify_eq; reflexivity.
Qed.

End Fetch.

(** * The data-model summary panel *)

Section DataModel.
Import DataModelSummary.
Context {DashboardDataModel : Type} `{IsEmpty DashboardDataModel}.

Lemma dataModelDetails_snoc (first : Props DashboardDataModel) later props :
  dataModelDetails first (later ++ [props]) =
  effect props (dataModelDetails first later).
Proof. unfold dataModelDetails. now rewrite foldl_snoc. Qed.

(** C10.  A render whose [entityDetails] is empty leaves the stored details
    as they were, and one whose [entityDetails] is not empty stores them.
    So the stored details are at any time the [entityDetails] of the first
    render or those, not empty, of a later render.  The skeleton is shown
    exactly when the panel is loading or the stored details are empty. *)
Theorem stored_details_skip_empty_input
    (first : Props DashboardDataModel) (later : list (Props DashboardDataModel)) :
  (forall props,
     isEmpty (entityDetails props) = true ->
     dataModelDetails first (later ++ [props]) = dataModelDetails first later) /\
  (forall props,
     isEmpty (entityDetails props) = false ->
     dataModelDetails first (later ++ [props]) = entityDetails props) /\
  (dataModelDetails first later = entityDetails first \/
   exists props,
     props ∈ later /\ isEmpty (entityDetails props) = false /\
     dataModelDetails first later = entityDetails props) /\
  (forall props stored,
     loading props stored = true <->
     isLoading props = true \/ isEmpty stored = true).
Proof.
  split; [|split; [|split]].
  - intros props Hempty. rewrite dataModelDetails_snoc. unfold effect. now rewrite Hempty.
  - intros props Hfull. rewrite dataModelDetails_snoc. unfold effect. now rewrite Hfull.
  - induction later as [|props later IH] using rev_ind.
    + left. unfold dataModelDetails, effect, mount. cbn.
      now destruct (isEmpty (entityDetails first)).
    + rewrite dataModelDetails_snoc. unfold effect.
      destruct (isEmpty (entityDetails props)) eqn:Hprops; cbn [negb].
      * destruct IH as [IH|(p & Hp & Hfull & IH)]; [now left|].
        right. exists p. split; [|now split]. apply elem_of_app. now left.
      * right. exists props. split; [|now split]. apply elem_of_app. right. now left.
  - intros props stored. unfold loading. now rewrite orb_true_iff.
Qed.

End DataModel.

(** * The theorems at the sample inputs *)

Section Samples.
#[local] Existing Instance sampleImports.

Lemma chartData_oldest_first_witness :
  newestFirst true sampleResults /\
  length (data (chartData sampleThreads sampleResults)) = length sampleResults /\
  exists sources,
    data (chartData sampleThreads sampleResults) =
      chartPoint sampleThreads <$> sources /\
    sources = reverse sampleResults /\
    oldestFirst true sources.
Proof.
  assert (Hnewest : newestFirst true sampleResults).
  { unfold newestFirst, sampleResults. repeat constructor. }
  split; [exact Hnewest|].
  destruct (chartData_one_point_per_result_oldest_first
              sampleThreads sampleResults true Hnewest)
    as (Hlength & Hsources & _).
  split; [exact Hlength|exact Hsources].
Defined.

(** The claim C1 read without its premise fails: results that come oldest
    first are displayed newest first. *)
Example chartData_keeps_no_order_of_its_own :
  (fun point : Object => point !! "name")
  <$> data (chartData [] (reverse sampleResults)) =
  [Some (VNumber 3000%float); Some (VNumber 2000%float); Some (VNumber 1000%float)].
Proof. vm_compute. reflexivity. Qed.

(** With no parameter, whether the list is missing or empty, the element
    returned is a reference area that has no bound. *)
Example referenceArea_without_parameters_is_an_area :
  type (referenceArea (sampleTestCase None None)) = "ReferenceArea" /\
  type (referenceArea (sampleTestCase None (Some []))) = "ReferenceArea" /\
  props (referenceArea (sampleTestCase None None)) !! "y1" = None /\
  props (referenceArea (sampleTestCase None None)) !! "y2" = None.
Proof. repeat split; vm_compute; reflexivity. Qed.

(** The single parameter [minValue] of value 10: a line with a label and no
    [y]; the same parameter before a second one: an area from 10 to 20. *)
Lemma referenceLine_is_given_no_position_witness :
  type (referenceArea oneParameter) = "ReferenceLine" /\
  props (referenceArea oneParameter) !! "label" = Some (VString "minValue") /\
  props (referenceArea oneParameter) !! "y" = None /\
  type (referenceArea twoParameters) = "ReferenceArea" /\
  props (referenceArea twoParameters) !! "y1" = Some (VNumber 10%float) /\
  props (referenceArea twoParameters) !! "y2" = Some (VNumber 20%float).
Proof.
  destruct (referenceLine_is_given_no_position oneParameter
              (TestCaseParameterValue.mk (Some "minValue") (Some "10")) eq_refl)
    as (Htype & Hlabel & Hy & _ & _ & Harea).
  destruct (Harea twoParameters _ _ eq_refl) as (Htype' & Hy1 & Hy2).
  split; [exact Htype|]. split; [exact Hlabel|]. split; [exact Hy|].
  split; [exact Htype'|]. split; [exact Hy1|exact Hy2].
Defined.

(** A list of chart points none of which matches a thread. *)
Lemma no_match (thread : Thread.t) (points : list Object) :
  forallb (fun chart => negb (matches thread chart)) points = true ->
  forall chart : Object, chart ∈ points -> matches thread chart = false.
Proof.
  intros Hall chart Hin. rewrite forallb_forall in Hall.
  apply negb_true_iff, Hall. now apply list_elem_of_In.
Qed.

(** C3, as stated, fails: no chart point refers to the incident of the
    third thread, and the chart is still given a reference area for it,
    from no start to the time the thread was closed. *)
Lemma unmatched_closed_thread_keeps_its_overlay :
  forallb (fun chart => negb (matches strayThread chart))
    (data (chartData sampleThreads sampleResults)) = true /\
  (fun element =>
     (type element, key element, props element !! "x1", props element !! "x2"))
  <$> incidentsOf
        (getGraph unnamedTestCase sampleThreads (sampleState sampleResults false))
      !! 2%nat =
  Some ("ReferenceArea", Some "thread-3", Some VUndefined,
        Some (VNumber 2750%float)).
Proof. split; vm_compute; reflexivity. Qed.

Lemma unmatched_incident_witness :
  (exists incident,
     incidentData sampleThreads (chartData sampleThreads sampleResults) !! 2%nat =
       Some incident /\
     task incident = strayThread /\ x1 incident = VUndefined) /\
  (exists c element,
     getGraph unnamedTestCase sampleThreads (sampleState sampleResults false) =
       Chart c /\
     incidents c !! 2%nat = Some element /\
     type element = "ReferenceArea" /\
     key element = Some (Thread.id strayThread) /\
     props element !! "x1" = Some VUndefined /\
     props element !! "x2" = Some (endBound strayThread)).
Proof.
  destruct (unmatched_incident_has_no_start unnamedTestCase sampleThreads
              (sampleState sampleResults false) 2 strayThread eq_refl)
    as [Hincident Hgraph].
  - apply no_match. vm_compute. reflexivity.
  - split; [exact Hincident|]. apply Hgraph; [reflexivity|discriminate].
Defined.

(** C4, as stated, fails when the identifier alone is missing: a test case
    with properties but no fully qualified name is fetched, under the empty
    string. *)
Lemma fetch_without_identifier_calls_the_end_point :
  TestCase.fullyQualifiedName unnamedTestCase = None /\
  traceOf (fetchTestResults answering unnamedTestCase sampleRange)
    (sampleState [] true) =
  [GetListTestCaseResults "" (pickRange sampleRange)].
Proof. split; reflexivity. Qed.

Lemma fetch_short_circuit_witness :
  fetchTestResults answering emptyTestCase sampleRange (sampleState [] true) =
    (tt, sampleState [] true, []) /\
  exists later,
    traceOf (fetchTestResults answering unnamedTestCase sampleRange)
      (sampleState [] true) =
    GetListTestCaseResults "" (pickRange sampleRange) :: later.
Proof.
  split.
  - apply (fetch_short_circuits_on_empty_data answering emptyTestCase). reflexivity.
  - apply (fetch_short_circuits_on_empty_data answering unnamedTestCase). reflexivity.
Defined.

Lemma fetch_failure_witness :
  let after :=
    stateAfter (fetchTestResults failing oneParameter sampleRange)
      (sampleState sampleResults true) in
  isLoading after = false /\
  isGraphLoading after = false /\
  results after = sampleResults /\
  traceOf (fetchTestResults failing oneParameter sampleRange)
    (sampleState sampleResults true) =
  [GetListTestCaseResults "db.orders.total.column_values_between"
     (pickRange sampleRange);
   ShowErrorToast "Network Error"].
Proof.
  destruct (fetch_failure_keeps_results failing oneParameter sampleRange
              (sampleState sampleResults true) eq_refl)
    as (Hloading & Hgraph & Hrejected & _).
  destruct (Hrejected "Network Error" eq_refl) as [Hresults Htrace].
  repeat split; assumption.
Defined.

(** C6, as stated, fails: the pass percentage of this result is undefined,
    and its chart point has the key, with the number of the result value
    of that name. *)
Lemma chartPoint_keeps_a_shadowed_key :
  TestCaseResult.passedRowsPercentage shadowedResult = None /\
  chartPoint [] shadowedResult !! "passedRowsPercentage" = Some (VNumber 7%float).
Proof. split; vm_compute; reflexivity. Qed.

Lemma chartPoint_metric_witness :
  let point := chartPoint sampleThreads (sampleResult 1000%float (minMax "1" "9.5") None) in
  point !! "passedRows" = Some (VNumber 40%float) /\
  point !! "failedRows" = None /\
  point !! "passedRowsPercentage" = Some (VString "80%") /\
  point !! "failedRowsPercentage" = None.
Proof.
  destruct (chartPoint_undefined_metric_adds_no_key sampleThreads
              (sampleResult 1000%float (minMax "1" "9.5") None))
    as (Hpr & Hfr & Hpp & Hfp & _).
  cbv zeta. rewrite Hpr, Hfr, Hpp, Hfp. repeat split; vm_compute; reflexivity.
Defined.

Lemma incident_end_bound_witness :
  exists incident,
    incidentData sampleThreads (chartData sampleThreads sampleResults) !! 0%nat =
      Some incident /\
    Thread.id (task incident) = "thread-1" /\
    x2 incident = VNumber 2500%float.
Proof.
  destruct (incident_end_bound sampleThreads (chartData sampleThreads sampleResults)
              0 _ eq_refl)
    as (incident & Hlookup & Htask & Hclosed & _).
  exists incident. split; [exact Hlookup|]. split; [now rewrite Htask|].
  exact (Hclosed _ eq_refl eq_refl).
Defined.

(** C8, as stated, fails: the first result has two values of one name, and
    the series list has an entry for each of them. *)
Lemma information_repeats_a_repeated_name :
  remove_dups
    ((fun info => default "" (TestResultValue.name info))
     <$> default [] (TestCaseResult.testResultValue repeatedResult)) = ["min"] /\
  information (chartData [] [repeatedResult]) =
  [{| label := "min"; color := Some "#7147E8" |};
   {| label := "min"; color := Some "#B02AAC" |}].
Proof. split; vm_compute; reflexivity. Qed.

Lemma information_witness :
  information (chartData sampleThreads sampleResults) =
    [{| label := "min"; color := Some "#7147E8" |};
     {| label := "max"; color := Some "#B02AAC" |}] /\
  label <$> information (chartData sampleThreads sampleResults) = ["min"; "max"] /\
  information (chartData sampleThreads []) = [].
Proof.
  destruct (information_from_first_result sampleThreads sampleResults)
    as [Hseries Hlabels].
  destruct (Hlabels _ _ eq_refl) as [_ Hnames].
  rewrite Hnames, Hseries. repeat split.
Defined.

(** C9, as stated, fails: the value string [Infinity] is kept as an
    infinity, which is no finite number. *)
Lemma chartPoint_carries_an_infinity :
  chartPoint [] unboundedResult !! "max" = Some (VNumber infinity) /\
  isFinite infinity = false /\
  value (TestResultValue.mk (Some "max") (Some "1e999")) = infinity.
Proof. repeat split; vm_compute; reflexivity. Qed.

Lemma metric_value_witness :
  value (TestResultValue.mk (Some "min") None) = 0%float /\
  value (TestResultValue.mk (Some "min") (Some "n/a")) = 0%float /\
  isNaN (value (TestResultValue.mk (Some "max") (Some "9.5"))) = false /\
  chartPoint sampleThreads (sampleResult 1000%float (minMax "n/a" "9.5") None) !! "max" =
    Some (VNumber 9.5%float).
Proof.
  destruct (metric_value_never_NaN sampleThreads
              (sampleResult 1000%float (minMax "n/a" "9.5") None))
    as [Hvalue Hpoint].
  split; [apply Hvalue; reflexivity|].
  split; [apply Hvalue; reflexivity|].
  split; [apply Hvalue|].
  eapply Hpoint; [reflexivity|vm_compute; reflexivity|].
  unfold laterKeys, metricKeys. cbn [app]. rewrite !not_elem_of_cons.
  repeat split; try discriminate. apply not_elem_of_nil.
Defined.

Lemma stored_details_witness :
  let first := render ∅ true in
  DataModelSummary.dataModelDetails first [] = ∅ /\
  DataModelSummary.loading first (DataModelSummary.dataModelDetails first []) = true /\
  DataModelSummary.dataModelDetails first sampleRenders = someDetails /\
  DataModelSummary.loading (render ∅ false)
    (DataModelSummary.dataModelDetails first sampleRenders) = false.
Proof.
  intros first.
  destruct (stored_details_skip_empty_input first
              [render someDetails false])
    as (Hskip & _ & _ & _).
  destruct (stored_details_skip_empty_input first []) as (_ & Hstore & _ & Hskeleton).
  split; [reflexivity|]. split; [apply Hskeleton; now left|].
  assert (Hstored : DataModelSummary.dataModelDetails first sampleRenders = someDetails).
  { unfold sampleRenders.
    change [render someDetails false; render ∅ false]
      with ([render someDetails false] ++ [render ∅ false]).
    rewrite (Hskip (render ∅ false)) by (vm_compute; reflexivity).
    apply (Hstore (render someDetails false)). vm_compute. reflexivity. }
  split; [exact Hstored|]. rewrite Hstored. reflexivity.
Defined.

End Samples.

(** * Further properties of the chart points *)

Section PointFacts.
Context `{Imports}.

Lemma insert_others_keep (later : list TestResultValue.t) (acc : Object)
    (k : string) :
  (forall c : TestResultValue.t, c ∈ later -> valueKey c <> k) ->
  foldl (fun acc curr => <[valueKey curr := VNumber (value curr)]> acc) acc later !! k
  = acc !! k.
Proof.
  revert acc. induction later as [|c later IH]; intros acc Hfresh; [reflexivity|].
  cbn [foldl]. rewrite IH.
  - apply lookup_insert_ne. apply Hfresh. now left.
  - intros c' Hc'. apply Hfresh. now right.
Qed.

(** X1.  When several result values of a result bear one name, the number
    kept under that name is that of the last of them. *)
Theorem values_keep_the_last_of_a_name result earlier curr later :
  TestCaseResult.testResultValue result = Some (earlier ++ curr :: later) ->
  (forall c : TestResultValue.t, c ∈ later -> valueKey c <> valueKey curr) ->
  exists o : Object,
    values result = Some o /\
    o !! valueKey curr = Some (VNumber (value curr)).
Proof.
  intros Hvalues Hlast. rewrite values_eq, Hvalues.
  cbn [fmap option_fmap option_map]. eexists. split; [reflexivity|].
  rewrite foldl_app. cbn [foldl]. rewrite insert_others_keep by exact Hlast.
  apply lookup_insert_eq.
Qed.

Lemma chartPoint_key_precedence_aux entityThread result (o : Object) (v : Value) :
  values result = Some o -> o !! "status" = Some v ->
  chartPoint entityThread result !! "status" = Some v.
Proof.
  intros Ho Hv. rewrite chartPoint_lookup, omitBy_lookup, Ho.
  cbn [mbind option_bind]. now rewrite Hv.
Qed.

(** X2.  The order in which a chart point is written decides what a result
    value can replace: [incidentId] and [task] are written last and are
    those of the result whatever its values are called, while [name] and
    [status] are written first, so that a result value of that name stands
    in their place. *)
Theorem chartPoint_key_precedence entityThread result :
  let point := chartPoint entityThread result in
  point !! "incidentId" = Some (ofString (TestCaseResult.incidentId result)) /\
  point !! "task" =
    Some (ofThread (List.find (fun task => refersTo task result) entityThread)) /\
  (forall (o : Object) (v : Value),
     values result = Some o -> o !! "name" = Some v -> point !! "name" = Some v) /\
  (forall (o : Object) (v : Value),
     values result = Some o -> o !! "status" = Some v -> point !! "status" = Some v).
Proof.
  intros point. unfold point. split; [|split; [|split]].
  - rewrite chartPoint_lookup. reflexivity.
  - rewrite chartPoint_lookup. reflexivity.
  - intros o v Ho Hv. rewrite chartPoint_lookup, omitBy_lookup, Ho.
    cbn [mbind option_bind]. now rewrite Hv.
  - intros o v Ho Hv. rewrite chartPoint_lookup, omitBy_lookup, Ho.
    cbn [mbind option_bind]. now rewrite Hv.
Qed.

Lemma find_first {A} (f : A -> bool) (before : list A) (a : A) (after : list A) :
  (forall b, b ∈ before -> f b = false) -> f a = true ->
  List.find f (before ++ a :: after) = Some a.
Proof.
  induction before as [|b before IH]; intros Hbefore Ha; cbn.
  - now rewrite Ha.
  - rewrite (Hbefore b) by now left. apply IH; [|exact Ha].
    intros b' Hb'. apply Hbefore. now right.
Qed.

(** X3.  The thread a chart point refers back to is the first thread of the
    feed that is on the incident of the result; with no such thread the
    point has no task.  The comparison is strict equality, so a result with
    no incident is on the incident of a thread that has no resolution
    status (or no task at all). *)
Theorem chartPoint_task_is_the_first_thread_on_the_incident entityThread result :
  (forall before thread after,
     entityThread = before ++ thread :: after ->
     (forall t : Thread.t, t ∈ before -> refersTo t result = false) ->
     refersTo thread result = true ->
     get (chartPoint entityThread result) "task" = VThread thread) /\
  ((forall t : Thread.t, t ∈ entityThread -> refersTo t result = false) ->
   get (chartPoint entityThread result) "task" = VUndefined) /\
  (forall thread : Thread.t,
     get (chartPoint entityThread result) "task" = VThread thread ->
     thread ∈ entityThread /\ refersTo thread result = true) /\
  (forall thread : Thread.t,
     TestCaseResult.incidentId result = None ->
     resolutionStatusId thread = None ->
     refersTo thread result = true).
Proof.
  assert (Htask : get (chartPoint entityThread result) "task" =
                  ofThread (List.find (fun task => refersTo task result) entityThread)).
  { unfold get. rewrite chartPoint_lookup. reflexivity. }
  rewrite Htask. clear Htask. split; [|split; [|split]].
  - intros before thread after -> Hbefore Hthread.
    now rewrite (find_first _ _ _ _ Hbefore Hthread).
  - intros Hnone.
    destruct (List.find _ entityThread) as [t|] eqn:Hfind; [|reflexivity].
    apply find_some in Hfind as [Hin Ht].
    rewrite Hnone in Ht by now apply list_elem_of_In. discriminate Ht.
  - intros thread Hthread.
    destruct (List.find _ entityThread) as [t|] eqn:Hfind; [|discriminate Hthread].
    apply find_some in Hfind as [Hin Ht]. injection Hthread as <-.
    split; [now apply list_elem_of_In|exact Ht].
  - intros thread Hresult Hthread. unfold refersTo. now rewrite Hresult, Hthread.
Qed.

End PointFacts.

Section DotFacts.
Context `{Imports}.

Lemma chartPoint_status entityThread result :
  (forall curr : TestResultValue.t,
     curr ∈ default [] (TestCaseResult.testResultValue result) ->
     valueKey curr <> "status") ->
  get (chartPoint entityThread result) "status" =
  ofString (statusString <$> TestCaseResult.testCaseStatus result).
Proof.
  intros Hfresh. unfold get. rewrite chartPoint_lookup, omitBy_lookup.
  rewrite (values_lookup_None result "status" Hfresh). reflexivity.
Qed.

(** X4.  The marker of a chart point is green when its result succeeded,
    red when it failed and yellow for every other status or none, provided
    no result value is called [status]; when one is, the marker is yellow
    whatever the status.  The marker is centred: four units left of and
    above the point, both coordinates counting as zero when missing. *)
Theorem updatedDot_colour_follows_the_status YELLOW_2 entityThread result cx cy :
  let dot := updatedDot YELLOW_2 cx cy (chartPoint entityThread result) in
  ((forall curr : TestResultValue.t,
      curr ∈ default [] (TestCaseResult.testResultValue result) ->
      valueKey curr <> "status") ->
   fill dot = statusColour YELLOW_2 (TestCaseResult.testCaseStatus result)) /\
  (forall (o : Object) (v : Value),
     values result = Some o -> o !! "status" = Some v -> fill dot = YELLOW_2) /\
  dotX dot = (default 0 cx - 4)%float /\
  dotY dot = (default 0 cy - 4)%float.
Proof.
  intros dot. unfold dot, updatedDot. cbn [fill dotX dotY].
  split; [|split; [|split; reflexivity]].
  - intros Hfresh. rewrite (chartPoint_status _ _ Hfresh).
    now destruct (TestCaseResult.testCaseStatus result) as [[]|].
  - intros o v Ho Hv.
    destruct (values_lookup_Some _ _ _ _ Ho Hv) as (curr & _ & _ & ->).
    pose proof (chartPoint_key_precedence_aux entityThread result o _ Ho Hv) as Hpoint.
    unfold get. rewrite Hpoint. reflexivity.
Qed.

End DotFacts.

(** * Further properties of the incident overlays *)

Section OverlayFacts.
Context `{Imports}.

Lemma matches_chartPoint entityThread thread result :
  matches thread (chartPoint entityThread result) = refersTo thread result.
Proof. unfold matches, refersTo. now rewrite chartPoint_incidentId. Qed.

Lemma filter_fmap_none {A B} (f : A -> B) (p : B -> bool) (l : list A) :
  (forall a, a ∈ l -> p (f a) = false) -> List.filter p (f <$> l) = [].
Proof.
  intros Hnone. apply filter_none. intros b Hb.
  apply list_elem_of_fmap in Hb as (a & -> & Ha). now apply Hnone.
Qed.

(** X5.  The overlay of a thread starts at the point of the last result, in
    the order they were fetched, that is on the incident of the thread: the
    oldest one when the results come newest first.  Its start bound is the
    [name] of that point, which is the timestamp of the result unless a
    result value called [name] stands in its place. *)
Theorem incident_starts_at_the_last_fetched_match
    entityThread results (i : nat) thread newer result older :
  entityThread !! i = Some thread ->
  results = newer ++ result :: older ->
  refersTo thread result = true ->
  (forall r : TestCaseResult.t, r ∈ older -> refersTo thread r = false) ->
  exists incident,
    incidentData entityThread (chartData entityThread results) !! i = Some incident /\
    x1 incident = get (chartPoint entityThread result) "name" /\
    ((forall curr : TestResultValue.t,
        curr ∈ default [] (TestCaseResult.testResultValue result) ->
        valueKey curr <> "name") ->
     x1 incident = VNumber (TestCaseResult.timestamp result)).
Proof.
  intros Hi -> Hresult Holder.
  rewrite incidentData_lookup, Hi. cbn [fmap option_fmap option_map].
  eexists. split; [reflexivity|]. cbn [x1].
  assert (Hfirst :
            first (List.filter (matches thread)
                     (data (chartData entityThread (newer ++ result :: older)))) =
            Some (chartPoint entityThread result)).
  { rewrite chartData_data, reverse_app, reverse_cons, fmap_app, fmap_app.
    rewrite !List.filter_app. rewrite filter_fmap_none.
    - cbn [fmap list_fmap List.filter app].
      rewrite matches_chartPoint, Hresult. reflexivity.
    - intros r Hr. rewrite matches_chartPoint. apply Holder.
      now apply elem_of_reverse. }
  rewrite Hfirst. split; [reflexivity|].
  intros Hfresh. unfold get. now rewrite (chartPoint_name _ _ Hfresh).
Qed.

Lemma incidentData_tasks entityThread chartData :
  task <$> incidentData entityThread chartData = entityThread.
Proof.
  apply list_eq. intros i. rewrite list_lookup_fmap, incidentData_lookup.
  now destruct (entityThread !! i).
Qed.

(** X6.  Whenever the chart is shown it is given exactly one overlay per
    thread of the feed, in the order of the feed, each a reference area
    keyed by the identifier of its thread; no thread is left out or
    merged. *)
Theorem chart_has_one_overlay_per_thread data entityThread st :
  isGraphLoading st = false -> results st <> [] ->
  exists c,
    getGraph data entityThread st = Chart c /\
    length (incidents c) = length entityThread /\
    key <$> incidents c = (fun thread => Some (Thread.id thread)) <$> entityThread /\
    Forall (fun element => type element = "ReferenceArea") (incidents c).
Proof.
  intros Hloading Hresults. unfold getGraph. rewrite Hloading.
  destruct (results st) as [|r rs] eqn:Hrs; [done|]. cbn [length Nat.eqb negb].
  eexists. split; [reflexivity|]. cbn [incidents].
  set (incidentData' := incidentData entityThread (chartData entityThread (r :: rs))).
  assert (Hlength : length incidentData' = length entityThread).
  { unfold incidentData', incidentData. apply length_map. }
  assert (Hthreads : task <$> incidentData' = entityThread)
    by apply incidentData_tasks.
  destruct (0 <? length incidentData')%nat eqn:Hsome.
  - rewrite map_fmap. split; [now rewrite length_fmap|]. split.
    + rewrite <- Hthreads. rewrite <- !list_fmap_compose. reflexivity.
    + apply Forall_fmap, Forall_true. reflexivity.
  - apply Nat.ltb_ge in Hsome.
    assert (entityThread = []) as -> by (apply nil_length_inv; lia).
    repeat split. constructor.
Qed.

(** X7.  The legend lists the series in their order, each as a line in its
    colour, and ends with the one entry for incidents; the chart draws one
    line per series, whose data key is the label that the legend shows at
    the same place. *)
Theorem legend_lists_the_series_then_the_incident data entityThread st :
  isGraphLoading st = false -> results st <> [] ->
  exists c,
    getGraph data entityThread st = Chart c /\
    let series := information (chartData entityThread (results st)) in
    legend c =
      ((fun info =>
          {| legendValue := label info; legendType := "line";
             legendColor := color info |}) <$> series)
      ++ [{| legendValue := "Incident"; legendType := "rect";
             legendColor := Some RED_3 |}] /\
    length (legend c) = S (length (lines c)) /\
    (fun line => props line !! "dataKey") <$> lines c =
      (fun info => Some (VString (label info))) <$> series.
Proof.
  intros Hloading Hresults. unfold getGraph. rewrite Hloading.
  destruct (results st) as [|r rs] eqn:Hrs; [done|]. cbn [length Nat.eqb negb].
  eexists. split; [reflexivity|]. cbn [legend lines]. cbv zeta.
  unfold customLegendPayLoad. rewrite !map_fmap. split; [reflexivity|]. split.
  - rewrite length_app, !length_fmap. cbn. lia.
  - rewrite <- list_fmap_compose. apply list_fmap_ext. intros ? info _. reflexivity.
Qed.

End OverlayFacts.

(** * Further properties of the reference marker *)

Section BoundFacts.
Context `{Imports}.

(** X8.  The reference area gets one bound per parameter and nothing else:
    its bounds are [y1] up to [y]n for the n parameters, the bound [y]i
    being the one of the i-th parameter. *)
Theorem yValues_has_one_bound_per_parameter params :
  size (yValues params) = length params /\
  (forall k : string,
     is_Some (yValues params !! k) <->
     exists j : nat, (j < length params)%nat /\ k = "y" +:+ pretty (j + 1)%nat) /\
  (forall (j : nat) p,
     params !! j = Some p ->
     yValues params !! ("y" +:+ pretty (j + 1)%nat) = Some (bound p)).
Proof.
  split; [|split].
  - induction params as [|p params IH] using rev_ind; [reflexivity|].
    rewrite yValues_snoc, length_app, map_size_insert_None; [cbn; lia|].
    rewrite yValues_lookup. now rewrite lookup_ge_None_2.
  - intros k. split; [apply yValues_keys|].
    intros (j & Hj & ->). rewrite yValues_lookup.
    destruct (lookup_lt_is_Some_2 params j Hj) as [p ->]. now eexists.
  - intros j p Hp. now rewrite yValues_lookup, Hp.
Qed.

(** X9.  When the test case has two parameters or more, a parameter whose
    value is missing or empty gives the reference area the bound [NaN]:
    nothing is raised and the bound is not left out. *)
Theorem missing_parameter_value_gives_NaN data params (j : nat) p :
  TestCase.parameterValues data = Some params ->
  length params <> 1%nat ->
  params !! j = Some p ->
  TestCaseParameterValue.value p = None \/ TestCaseParameterValue.value p = Some "" ->
  type (referenceArea data) = "ReferenceArea" /\
  props (referenceArea data) !! ("y" +:+ pretty (j + 1)%nat) = Some (VNumber nan).
Proof.
  intros Hdata Hlength Hp Hvalue.
  destruct (referenceArea_bounds data) as (Htype & Hbounds).
  { now rewrite Hdata. }
  split; [exact Htype|]. rewrite Hbounds, Hdata.
  change (default [] (Some params)) with params.
  rewrite Hp. cbn [fmap option_fmap option_map].
  unfold bound. now destruct Hvalue as [-> | ->].
Qed.

End BoundFacts.

(** * Further properties of the fetch and of the date picker *)

Section SessionFacts.
Context `{Imports}.

Lemma fetch_cases api data dateRangeObj st :
  let fqn := default "" (TestCase.fullyQualifiedName data) in
  let call := GetListTestCaseResults fqn (pickRange dateRangeObj) in
  let cleared results :=
    {| results := results; dateRangeObject := dateRangeObject st;
       isLoading := false; isGraphLoading := false;
       selectedTimeRange := selectedTimeRange st |} in
  fetchTestResults api data dateRangeObj st =
  if isEmpty data then (tt, st, [])
  else
    match api fqn (pickRange dateRangeObj) with
    | Fulfilled chartData => (tt, cleared chartData, [call])
    | Rejected error => (tt, cleared (results st), [call; ShowErrorToast error])
    end.
Proof.
  cbv zeta. unfold fetchTestResults. destruct (isEmpty data); [reflexivity|].
  unfold bind, getListTestCaseResults.
  now destruct (api _ _).
Qed.

(** X10.  A fetch never touches the selected date range or its label and
    never turns the first-load flag back on; it makes at most one REST
    call, and shows a toast only after a call. *)
Theorem fetch_leaves_the_selection_alone api data dateRangeObj st :
  let after := stateAfter (fetchTestResults api data dateRangeObj) st in
  let trace := traceOf (fetchTestResults api data dateRangeObj) st in
  let call :=
    GetListTestCaseResults (default "" (TestCase.fullyQualifiedName data))
      (pickRange dateRangeObj) in
  dateRangeObject after = dateRangeObject st /\
  selectedTimeRange after = selectedTimeRange st /\
  (isLoading after = true -> isLoading st = true) /\
  (trace = [] \/ trace = [call] \/ exists error, trace = [call; ShowErrorToast error]).
Proof.
  cbv zeta. unfold stateAfter, traceOf. rewrite fetch_cases. cbv zeta.
  destruct (isEmpty data); [cbn; tauto|].
  destruct (api _ _) as [chartData|error]; cbn; repeat split; try discriminate; eauto.
Qed.

(** X11.  Once a fetch was issued the panel shows its graph container,
    never a loader: the placeholder that names the selected time range when
    the call answered with no result, the chart of the results received
    when it answered with some, and, when the call failed, what the results
    from before give. *)
Theorem graph_after_fetch api data entityThread dateRangeObj st :
  isEmpty data = false ->
  let after := stateAfter (fetchTestResults api data dateRangeObj) st in
  let outcome :=
    api (default "" (TestCase.fullyQualifiedName data)) (pickRange dateRangeObj) in
  graphArea data entityThread after =
    GraphContainer (getGraph data entityThread after) /\
  getGraph data entityThread after <> Loader /\
  (outcome = Fulfilled [] ->
   getGraph data entityThread after = ErrorPlaceHolder (selectedTimeRange st)) /\
  (forall r rs,
     outcome = Fulfilled (r :: rs) ->
     exists c,
       getGraph data entityThread after = Chart c /\
       points c = TestSummary.data (chartData entityThread (r :: rs))) /\
  (forall error,
     outcome = Rejected error ->
     match results st with
     | [] => getGraph data entityThread after = ErrorPlaceHolder (selectedTimeRange st)
     | _ :: _ =>
         exists c,
           getGraph data entityThread after = Chart c /\
           points c = TestSummary.data (chartData entityThread (results st))
     end).
Proof.
  intros Hdata. cbv zeta. unfold stateAfter. rewrite fetch_cases. cbv zeta.
  rewrite Hdata. unfold graphArea, getGraph.
  destruct (api _ _) as [chartData|error]; cbn [fst snd isLoading isGraphLoading
    results selectedTimeRange].
  - split; [reflexivity|]. split; [now destruct chartData|]. split; [|split].
    + now intros [= ->].
    + intros r rs [= ->]. cbn [length Nat.eqb negb]. eexists. split; reflexivity.
    + discriminate.
  - split; [reflexivity|]. split; [now destruct (results st)|]. split; [|split].
    + discriminate.
    + discriminate.
    + intros ? _. destruct (results st) as [|r rs]; [reflexivity|].
      cbn [length Nat.eqb negb]. eexists. split; reflexivity.
Qed.

Lemma isEqualNumber_refl (a : number) : isEqualNumber a a = true.
Proof.
  unfold isEqualNumber, PrimFloat.is_nan. now destruct (PrimFloat.eqb a a).
Qed.

Lemma isEqualString_refl (a : option string) : isEqualString a a = true.
Proof. destruct a as [s|]; [|reflexivity]. cbn. apply String.eqb_refl. Qed.

Lemma isEqual_refl (d : DateRangeObject.t) : isEqual d d = true.
Proof.
  unfold isEqual. now rewrite !isEqualNumber_refl, !isEqualString_refl.
Qed.

(** X12.  Choosing a date range that equals the current one, property by
    property, changes nothing and fetches nothing; this holds in particular
    for the current range itself.  Choosing any other range stores it and,
    for a test case that is not empty, fetches the results of that range,
    its bounds alone being sent. *)
Theorem same_range_is_not_fetched_again api data value st :
  (isEqual value (dateRangeObject st) = true ->
   onDateRangeChange api data value st = (tt, st, [])) /\
  onDateRangeChange api data (dateRangeObject st) st = (tt, st, []) /\
  (isEqual value (dateRangeObject st) = false ->
   dateRangeObject (stateAfter (onDateRangeChange api data value) st) = value /\
   (isEmpty data = false ->
    exists later,
      traceOf (onDateRangeChange api data value) st =
      GetListTestCaseResults (default "" (TestCase.fullyQualifiedName data))
        (pickRange value) :: later)).
Proof.
  assert (Hsame : forall v, isEqual v (dateRangeObject st) = true ->
                            onDateRangeChange api data v st = (tt, st, [])).
  { intros v Hv. unfold onDateRangeChange, handleDateRangeChange. now rewrite Hv. }
  split; [apply Hsame|]. split; [apply Hsame, isEqual_refl|].
  intros Hother. unfold stateAfter, traceOf, onDateRangeChange, handleDateRangeChange.
  rewrite Hother. cbn [negb]. unfold bind, dateRangeEffect, setDateRangeObject.
  cbv beta iota zeta. rewrite Hother. cbn [negb]. cbv beta iota zeta.
  rewrite fetch_cases. cbv zeta. cbn [dateRangeObject].
  destruct (isEmpty data); [split; [reflexivity|discriminate]|].
  destruct (api _ _); cbn; (split; [reflexivity|intros _; eexists; reflexivity]).
Qed.

End SessionFacts.

Section RunFacts.
Context `{Imports}.

Lemma bind_state {A B} (m : Action A) (k : Action B) st :
  stateAfter (bind m (fun _ => k)) st = stateAfter k (stateAfter m st).
Proof.
  unfold stateAfter, bind. destruct (m st) as [[a st1] t1].
  cbn [fst snd]. cbv beta iota. now destruct (k st1) as [[b st2] t2].
Qed.

Lemma bind_trace {A B} (m : Action A) (k : Action B) st :
  traceOf (bind m (fun _ => k)) st = traceOf m st ++ traceOf k (stateAfter m st).
Proof.
  unfold stateAfter, traceOf, bind. destruct (m st) as [[a st1] t1].
  cbn [fst snd]. cbv beta iota. now destruct (k st1) as [[b st2] t2].
Qed.

(** What an event does: a label is stored; a range that equals the current
    one is dropped; any other range is stored and fetched. *)
Lemma dispatch_cases api data e st :
  dispatch api data e st =
  match e with
  | SelectedTimeRange range => setSelectedTimeRange range st
  | DateRangeChange value =>
      if isEqual value (dateRangeObject st) then (tt, st, [])
      else fetchTestResults api data value (stateAfter (setDateRangeObject value) st)
  end.
Proof.
  destruct e as [value|range]; [|reflexivity].
  unfold dispatch, onDateRangeChange, handleDateRangeChange.
  destruct (isEqual value (dateRangeObject st)) eqn:Hvalue; [reflexivity|].
  cbn [negb]. unfold bind, dateRangeEffect. cbv beta iota zeta.
  rewrite Hvalue. cbn [negb]. unfold setDateRangeObject at 1. cbv beta iota zeta.
  cbn [dateRangeObject]. unfold stateAfter, setDateRangeObject. cbn [fst snd].
  now destruct (fetchTestResults _ _ _ _) as [[[] st2] t2].
Qed.

(** A property of the state that every event keeps is kept by a run of
    events. *)
Lemma session_keeps api data (P : State -> Prop) :
  (forall e st, P st -> P (stateAfter (dispatch api data e) st)) ->
  forall events st, P st -> P (stateAfter (session api data events) st).
Proof.
  intros Hstep events. induction events as [|e events IH]; intros st Hst.
  - exact Hst.
  - cbn [session]. rewrite bind_state. apply IH, Hstep, Hst.
Qed.

Lemma session_silent api data :
  (forall e st, traceOf (dispatch api data e) st = []) ->
  forall events st, traceOf (session api data events) st = [].
Proof.
  intros Hstep events. induction events as [|e events IH]; intros st.
  - reflexivity.
  - cbn [session]. now rewrite bind_trace, Hstep, IH.
Qed.

Lemma dispatch_empty_data api data e st :
  isEmpty data = true ->
  traceOf (dispatch api data e) st = [] /\
  results (stateAfter (dispatch api data e) st) = results st /\
  isLoading (stateAfter (dispatch api data e) st) = isLoading st /\
  isGraphLoading (stateAfter (dispatch api data e) st) = isGraphLoading st.
Proof.
  intros Hdata. unfold traceOf, stateAfter. rewrite dispatch_cases.
  destruct e as [value|range]; [|now cbn].
  destruct (isEqual value (dateRangeObject st)); [now cbn|].
  rewrite fetch_cases. cbv zeta. rewrite Hdata. now cbn.
Qed.

(** X13.  A panel that is given an empty test case never leaves its first
    loader: whatever ranges and labels are chosen afterwards, no REST call
    is made, no result is stored and the first-load flag stays set, so the
    panel shows its loader and neither the date picker nor the graph. *)
Theorem empty_test_case_never_loads
    api data entityThread initialRange title events :
  isEmpty data = true ->
  let run := mounted api data events in
  let after := stateAfter run (initialState initialRange title) in
  traceOf run (initialState initialRange title) = [] /\
  results after = [] /\
  isLoading after = true /\
  graphArea data entityThread after = PanelLoader.
Proof.
  intros Hdata run after.
  assert (Hmount : dateRangeEffect api data (initialState initialRange title) =
                   (tt, initialState initialRange title, [])).
  { unfold dateRangeEffect. rewrite fetch_cases. cbv zeta. now rewrite Hdata. }
  assert (Hafter : after =
                   stateAfter (session api data events) (initialState initialRange title)).
  { unfold after, run, mounted. rewrite bind_state.
    unfold stateAfter at 2. now rewrite Hmount. }
  assert (Hkept : results after = [] /\ isLoading after = true).
  { rewrite Hafter.
    apply (session_keeps api data
             (fun st => results st = [] /\ isLoading st = true)); [|now split].
    intros e st [Hresults Hloading].
    destruct (dispatch_empty_data api data e st Hdata) as (_ & -> & -> & _).
    now split. }
  destruct Hkept as [Hresults Hloading]. split; [|split; [|split]]; try assumption.
  - unfold run, mounted. rewrite bind_trace. unfold traceOf at 1, stateAfter.
    rewrite Hmount. cbn [fst snd app].
    apply session_silent. intros e st. now apply dispatch_empty_data.
  - unfold graphArea. now rewrite Hloading.
Qed.

Lemma dispatch_keeps_loaded api data e st :
  isLoading st = false /\ isGraphLoading st = false ->
  isLoading (stateAfter (dispatch api data e) st) = false /\
  isGraphLoading (stateAfter (dispatch api data e) st) = false.
Proof.
  intros [Hloading Hgraph]. unfold stateAfter. rewrite dispatch_cases.
  destruct e as [value|range]; [|now cbn].
  destruct (isEqual value (dateRangeObject st)); [now cbn|].
  rewrite fetch_cases. cbv zeta.
  destruct (isEmpty data); [now cbn|]. now destruct (api _ _).
Qed.

(** X14.  A panel that is given a test case that is not empty has finished
    loading once its first fetch is over, however that fetch ended, and
    stays so through every later choice of range or label: both loading
    flags are clear after each event, and the panel shows its graph
    container, with a chart or the placeholder, never a loader. *)
Theorem panel_is_loaded_after_mount api data entityThread events st :
  isEmpty data = false ->
  let after := stateAfter (mounted api data events) st in
  isLoading after = false /\
  isGraphLoading after = false /\
  graphArea data entityThread after = GraphContainer (getGraph data entityThread after) /\
  getGraph data entityThread after <> Loader.
Proof.
  intros Hdata after.
  assert (Hflags : isLoading after = false /\ isGraphLoading after = false).
  { unfold after, mounted. rewrite bind_state.
    apply (session_keeps api data
             (fun st => isLoading st = false /\ isGraphLoading st = false)).
    - intros e st'. apply dispatch_keeps_loaded.
    - unfold stateAfter, dateRangeEffect. rewrite fetch_cases. cbv zeta.
      rewrite Hdata. now destruct (api _ _). }
  destruct Hflags as [Hloading Hgraph]. split; [exact Hloading|]. split; [exact Hgraph|].
  unfold graphArea, getGraph. rewrite Hloading, Hgraph. split; [reflexivity|].
  now destruct (results after).
Qed.

(** X15.  The stored results change only by a fulfilled REST call: after
    the first fetch and any events, they are the results from before or a
    list that the end point answered with, to a call under the name of the
    test case. *)
Theorem results_come_from_the_end_point api data events st :
  let after := stateAfter (mounted api data events) st in
  let fqn := default "" (TestCase.fullyQualifiedName data) in
  results after = results st \/
  exists params,
    api fqn (pickRange params) = Fulfilled (results after).
Proof.
  cbv zeta.
  set (fqn := default "" (TestCase.fullyQualifiedName data)).
  set (P := fun s : State =>
              results s = results st \/
              exists params, api fqn (pickRange params) = Fulfilled (results s)).
  assert (Hfetch : forall range s, P s ->
                     P (stateAfter (fetchTestResults api data range) s)).
  { intros range s Hs. unfold stateAfter. rewrite fetch_cases. cbv zeta. fold fqn.
    destruct (isEmpty data); [exact Hs|].
    destruct (api fqn (pickRange range)) as [chartData|error] eqn:Hcall; cbn.
    - right. exists range. exact Hcall.
    - exact Hs. }
  assert (Hstep : forall e s, P s -> P (stateAfter (dispatch api data e) s)).
  { intros e s Hs. unfold stateAfter at 1. rewrite dispatch_cases.
    destruct e as [value|range]; [|exact Hs].
    destruct (isEqual value (dateRangeObject s)); [exact Hs|].
    apply Hfetch. exact Hs. }
  unfold mounted. rewrite bind_state.
  apply (session_keeps api data P Hstep). unfold dateRangeEffect.
  apply Hfetch. now left.
Qed.

End RunFacts.

(** * Further properties of the parameter part *)

Section ParameterFacts.

Lemma filter_split {A} (f : A -> bool) (l : list A) :
  l ≡ₚ List.filter f l ++ List.filter (fun a => negb (f a)) l.
Proof.
  induction l as [|a l IH]; [reflexivity|]. cbn.
  destruct (f a); cbn.
  - now constructor.
  - rewrite <- Permutation_middle. now constructor.
Qed.

Lemma filter_all {A} (f : A -> bool) (l : list A) :
  Forall (fun a => f a = true) (List.filter f l).
Proof.
  apply Forall_forall. intros a Ha. apply list_elem_of_In, filter_In in Ha. tauto.
Qed.

(** X16.  When the test case has parameters, they are split in two by their
    name: the ones called [sqlExpression] and the others, each parameter
    falling on exactly one side and each side keeping the order of the
    list.  The text parameters are shown exactly when there is one that is
    not a SQL expression.  With no parameter list, or an empty one, neither
    side exists and no parameter is shown. *)
Theorem parameters_split_by_sqlExpression data :
  match TestCase.parameterValues data with
  | Some (p :: ps) =>
      parameterValuesWithSqlExpression data = Some (List.filter isSqlQuery (p :: ps)) /\
      parameterValuesWithoutSqlExpression data =
        Some (List.filter (fun param => negb (isSqlQuery param)) (p :: ps)) /\
      p :: ps ≡ₚ
        default [] (parameterValuesWithSqlExpression data)
        ++ default [] (parameterValuesWithoutSqlExpression data) /\
      (showParameters data = true <->
       exists param, param ∈ p :: ps /\ isSqlQuery param = false)
  | _ =>
      parameterValuesWithSqlExpression data = None /\
      parameterValuesWithoutSqlExpression data = None /\
      showParameters data = false
  end.
Proof.
  unfold showParameters, parameterValuesWithSqlExpression,
    parameterValuesWithoutSqlExpression.
  destruct (TestCase.parameterValues data) as [[|p ps]|]; [now cbn| |now cbn].
  cbn [length Nat.ltb Nat.leb default]. split; [reflexivity|]. split; [reflexivity|].
  split; [apply filter_split|].
  set (others := List.filter (fun param => negb (isSqlQuery param)) (p :: ps)).
  assert (Hothers : forall param,
             param ∈ others <-> param ∈ p :: ps /\ isSqlQuery param = false).
  { intros param. unfold others.
    rewrite !list_elem_of_In, filter_In, negb_true_iff. reflexivity. }
  split.
  - destruct others as [|param others']; [discriminate|]. intros _.
    exists param. apply Hothers. now left.
  - intros (param & Hparam). apply Hothers in Hparam.
    destruct others; [now apply elem_of_nil in Hparam|reflexivity].
Qed.

(** X17.  The parameter part never shows the note that no parameter is
    available: the block of text parameters is there only when it has a
    row.  Its rows are text views of the parameters that are not SQL
    expressions, in their order; the SQL block holds one editor per SQL
    expression, under the title [sqlExpression:].  A description that is
    missing or empty is not shown. *)
Theorem paramsContainer_never_says_no_parameter data :
  let container := paramsContainer data in
  parametersBlock container <> Some NoParameterAvailable /\
  (forall rows,
     parametersBlock container = Some (ParameterRows rows) ->
     rows <> [] /\
     Forall isTextView rows /\
     rows = showParamsData
            <$> default [] (parameterValuesWithoutSqlExpression data)) /\
  (forall views,
     sqlBlock container = Some views ->
     Forall isEditorView views /\
     length views =
     length (default [] (parameterValuesWithSqlExpression data))) /\
  (descriptionBlock container <> Some "" /\
   (TestCase.description data = None -> descriptionBlock container = None)).
Proof.
  cbv zeta. unfold paramsContainer. cbn [parametersBlock sqlBlock descriptionBlock].
  assert (Hshow : showParameters data = true ->
                  isEmpty (parameterValuesWithoutSqlExpression data) = false).
  { unfold showParameters.
    destruct (parameterValuesWithoutSqlExpression data) as [[|? ?]|]; now cbn. }
  split; [|split; [|split]].
  - destruct (showParameters data); [|discriminate].
    now rewrite Hshow.
  - intros rows. destruct (showParameters data) eqn:Hshown; [|discriminate].
    rewrite Hshow by reflexivity. cbn [negb]. intros [= <-].
    unfold showParameters, parameterValuesWithoutSqlExpression in *.
    destruct (TestCase.parameterValues data) as [ps|]; [|discriminate].
    destruct (0 <? length ps)%nat; [|discriminate]. cbn [default].
    split; [|split; [|reflexivity]].
    + destruct (List.filter _ ps); [discriminate|]. discriminate.
    + rewrite map_fmap. apply Forall_fmap.
      eapply Forall_impl; [apply filter_all|]. intros param Hparam.
      cbv beta in Hparam. apply negb_true_iff in Hparam.
      unfold compose, showParamsData. now rewrite Hparam.
  - intros views. unfold parameterValuesWithSqlExpression.
    destruct (TestCase.parameterValues data) as [ps|]; [|discriminate].
    destruct (0 <? length ps)%nat; [|discriminate].
    cbn [fmap option_fmap option_map default]. intros [= <-].
    split; [|apply length_map].
    rewrite map_fmap. apply Forall_fmap.
    eapply Forall_impl; [apply filter_all|]. intros param Hparam.
    unfold compose, showParamsData. rewrite Hparam. unfold isSqlQuery in Hparam.
    destruct (TestCaseParameterValue.name param) as [name|]; [|discriminate].
    apply String.eqb_eq in Hparam as ->. now split.
  - split.
    + destruct (TestCase.description data) as [description|]; [|discriminate].
      destruct (String.eqb description "") eqn:Hempty; [discriminate|].
      intros [= ->]. discriminate.
    + now intros ->.
Qed.

End ParameterFacts.

(** * Further properties of the data-model summary panel *)

Section StoredFacts.
Import DataModelSummary.
Context {DashboardDataModel : Type} `{IsEmpty DashboardDataModel}.

Lemma empty_renders_keep (stored : DashboardDataModel)
    (later : list (Props DashboardDataModel)) :
  Forall (fun props => isEmpty (entityDetails props) = true) later ->
  foldl (fun stored props => effect props stored) stored later = stored.
Proof.
  revert stored. induction later as [|props later IH]; intros stored Hall; [reflexivity|].
  apply Forall_cons in Hall as [Hprops Hlater]. cbn [foldl].
  unfold effect at 2. rewrite Hprops. now apply IH.
Qed.

(** X18.  The stored details are those of the last render whose
    [entityDetails] were not empty, and those of the first render when no
    render since had any. *)
Theorem stored_details_are_the_last_that_were_not_empty
    (first : Props DashboardDataModel) earlier props later :
  Forall (fun props => isEmpty (entityDetails props) = true) later ->
  (isEmpty (entityDetails props) = false ->
   dataModelDetails first (earlier ++ props :: later) = entityDetails props) /\
  dataModelDetails first later = entityDetails first.
Proof.
  intros Hlater. split.
  - intros Hprops. unfold dataModelDetails. rewrite foldl_app. cbn [foldl].
    rewrite empty_renders_keep by exact Hlater. unfold effect. now rewrite Hprops.
  - unfold dataModelDetails. rewrite empty_renders_keep by exact Hlater.
    unfold effect, mount. now destruct (isEmpty (entityDetails first)).
Qed.

(** X19.  Once the stored details are not empty they never become empty
    again, whatever is rendered afterwards; from then on the skeleton is
    shown exactly while the panel is loading. *)
Theorem stored_details_stay_filled
    (first : Props DashboardDataModel) later more props :
  isEmpty (dataModelDetails first later) = false ->
  isEmpty (dataModelDetails first (later ++ more)) = false /\
  loading props (dataModelDetails first (later ++ more)) = isLoading props.
Proof.
  intros Hfilled.
  assert (Hstay : isEmpty (dataModelDetails first (later ++ more)) = false).
  { induction more as [|p more IH] using rev_ind.
    - now rewrite app_nil_r.
    - rewrite app_assoc, dataModelDetails_snoc. unfold effect.
      destruct (isEmpty (entityDetails p)) eqn:Hp; cbn [negb]; [exact IH|exact Hp]. }
  split; [exact Hstay|]. unfold loading. rewrite Hstay. apply orb_false_r.
Qed.

End StoredFacts.

(** * The further properties at the sample inputs *)

Section MoreSamples.
#[local] Existing Instance sampleImports.

Lemma values_keep_the_last_witness :
  exists o : Object,
    values repeatedResult = Some o /\ o !! "min" = Some (VNumber 2%float).
Proof.
  destruct (values_keep_the_last_of_a_name repeatedResult
              [TestResultValue.mk (Some "min") (Some "1")]
              (TestResultValue.mk (Some "min") (Some "2")) [])
    as (o & Ho & Hmin).
  - reflexivity.
  - intros c Hc. now apply elem_of_nil in Hc.
  - exists o. split; [exact Ho|exact Hmin].
Defined.

Lemma chartPoint_key_precedence_witness :
  chartPoint sampleThreads incidentResult !! "incidentId" =
    Some (VString "incident-1") /\
  chartPoint sampleThreads incidentResult !! "task" = Some (VThread incidentThread).
Proof.
  destruct (chartPoint_key_precedence sampleThreads incidentResult)
    as (Hincident & Htask & _).
  split; [exact Hincident|exact Htask].
Defined.

Lemma chartPoint_task_witness :
  get (chartPoint sampleThreads incidentResult) "task" = VThread incidentThread /\
  get (chartPoint sampleThreads newestResult) "task" = VUndefined.
Proof.
  destruct (chartPoint_task_is_the_first_thread_on_the_incident
              sampleThreads incidentResult) as (Hfirst & _).
  destruct (chartPoint_task_is_the_first_thread_on_the_incident
              sampleThreads newestResult) as (_ & Hnone & _).
  split.
  - apply (Hfirst [] incidentThread
             [sampleThread "thread-2"
                (Some (TaskDetails.mk (Some "incident-2") (Some Open) None));
              strayThread]).
    + reflexivity.
    + intros t Ht. now apply elem_of_nil in Ht.
    + reflexivity.
  - apply Hnone. intros t Ht. unfold sampleThreads in Ht.
    rewrite !elem_of_cons, elem_of_nil in Ht.
    destruct Ht as [->|[->|[->|[]]]]; reflexivity.
Defined.

Lemma updatedDot_witness :
  fill (updatedDot "#ffbe0e" (Some 10%float) None
          (chartPoint sampleThreads incidentResult)) = "#f24822" /\
  dotX (updatedDot "#ffbe0e" (Some 10%float) None
          (chartPoint sampleThreads incidentResult)) = 6%float /\
  dotY (updatedDot "#ffbe0e" (Some 10%float) None
          (chartPoint sampleThreads incidentResult)) = (-4)%float.
Proof.
  destruct (updatedDot_colour_follows_the_status "#ffbe0e" sampleThreads
              incidentResult (Some 10%float) None)
    as (Hfill & _ & Hx & Hy).
  rewrite Hx, Hy, Hfill; [repeat split|].
  intros curr Hcurr. cbn in Hcurr. rewrite !elem_of_cons, elem_of_nil in Hcurr.
  destruct Hcurr as [->|[->|[]]]; discriminate.
Defined.

Lemma incident_start_witness :
  exists incident,
    incidentData sampleThreads (chartData sampleThreads sampleResults) !! 0%nat =
      Some incident /\
    x1 incident = VNumber 2000%float.
Proof.
  destruct (incident_starts_at_the_last_fetched_match sampleThreads sampleResults
              0 incidentThread [newestResult] incidentResult [oldestResult])
    as (incident & Hlookup & _ & Hstart).
  - reflexivity.
  - reflexivity.
  - reflexivity.
  - intros r Hr. apply list_elem_of_singleton in Hr as ->. reflexivity.
  - exists incident. split; [exact Hlookup|]. apply Hstart.
    intros curr Hcurr. cbn in Hcurr. rewrite !elem_of_cons, elem_of_nil in Hcurr.
    destruct Hcurr as [->|[->|[]]]; discriminate.
Defined.

Lemma one_overlay_per_thread_witness :
  exists c,
    getGraph twoParameters sampleThreads (sampleState sampleResults false) = Chart c /\
    key <$> incidents c = [Some "thread-1"; Some "thread-2"; Some "thread-3"].
Proof.
  destruct (chart_has_one_overlay_per_thread twoParameters sampleThreads
              (sampleState sampleResults false))
    as (c & Hgraph & _ & Hkeys & _); [reflexivity|discriminate|].
  exists c. split; [exact Hgraph|exact Hkeys].
Defined.

Lemma legend_witness :
  exists c,
    getGraph twoParameters sampleThreads (sampleState sampleResults false) = Chart c /\
    legendValue <$> legend c = ["min"; "max"; "Incident"] /\
    (fun line => props line !! "dataKey") <$> lines c =
      [Some (VString "min"); Some (VString "max")].
Proof.
  destruct (legend_lists_the_series_then_the_incident twoParameters sampleThreads
              (sampleState sampleResults false))
    as (c & Hgraph & Hlegend & _ & Hlines); [reflexivity|discriminate|].
  exists c. split; [exact Hgraph|]. rewrite Hlegend, Hlines. split; reflexivity.
Defined.

Lemma one_bound_per_parameter_witness :
  size (yValues (default [] (TestCase.parameterValues twoParameters))) = 2%nat /\
  yValues (default [] (TestCase.parameterValues twoParameters)) !! "y2" =
    Some (VNumber 20%float) /\
  yValues (default [] (TestCase.parameterValues twoParameters)) !! "y3" = None.
Proof.
  destruct (yValues_has_one_bound_per_parameter
              (default [] (TestCase.parameterValues twoParameters)))
    as (Hsize & Hkeys & Hbound).
  split; [exact Hsize|]. split; [exact (Hbound 1%nat _ eq_refl)|].
  apply eq_None_not_Some. intros Hsome. apply Hkeys in Hsome as (j & Hj & Hkey).
  cbn in Hj. destruct j as [|[|j]]; [discriminate Hkey|discriminate Hkey|lia].
Defined.

Lemma missing_parameter_value_witness :
  type (referenceArea blankBound) = "ReferenceArea" /\
  props (referenceArea blankBound) !! "y1" = Some (VNumber nan) /\
  props (referenceArea blankBound) !! "y2" = Some (VNumber 20%float).
Proof.
  destruct (missing_parameter_value_gives_NaN blankBound
              [blankParameter;
               TestCaseParameterValue.mk (Some "maxValue") (Some "20")]
              0 blankParameter eq_refl)
    as (Htype & Hy1); [discriminate|reflexivity|now left|].
  split; [exact Htype|]. split; [exact Hy1|]. vm_compute. reflexivity.
Defined.

Lemma fetch_leaves_the_selection_witness :
  dateRangeObject
    (stateAfter (fetchTestResults answering oneParameter otherRange)
       (sampleState [] true)) = sampleRange /\
  selectedTimeRange
    (stateAfter (fetchTestResults answering oneParameter otherRange)
       (sampleState [] true)) = "Last 30 days".
Proof.
  destruct (fetch_leaves_the_selection_alone answering oneParameter otherRange
              (sampleState [] true))
    as (Hrange & Hlabel & _).
  split; [exact Hrange|exact Hlabel].
Defined.

Lemma graph_after_failed_fetch_witness :
  exists c,
    getGraph oneParameter sampleThreads
      (stateAfter (fetchTestResults failing oneParameter sampleRange)
         (sampleState sampleResults true)) = Chart c /\
    points c = data (chartData sampleThreads sampleResults).
Proof.
  destruct (graph_after_fetch failing oneParameter sampleThreads sampleRange
              (sampleState sampleResults true) eq_refl)
    as (_ & _ & _ & _ & Hfailed).
  exact (Hfailed "Network Error" eq_refl).
Defined.

Lemma same_range_witness :
  onDateRangeChange answering oneParameter sampleRange (sampleState [] false) =
    (tt, sampleState [] false, []) /\
  dateRangeObject
    (stateAfter (onDateRangeChange answering oneParameter otherRange)
       (sampleState [] false)) = otherRange.
Proof.
  destruct (same_range_is_not_fetched_again answering oneParameter otherRange
              (sampleState [] false))
    as (_ & Hsame & Hother).
  split; [exact Hsame|]. now apply Hother.
Defined.

Lemma empty_test_case_witness :
  traceOf (mounted answering emptyTestCase sampleEvents)
    (initialState sampleRange "Last 30 days") = [] /\
  graphArea emptyTestCase sampleThreads
    (stateAfter (mounted answering emptyTestCase sampleEvents)
       (initialState sampleRange "Last 30 days")) = PanelLoader.
Proof.
  destruct (empty_test_case_never_loads answering emptyTestCase sampleThreads
              sampleRange "Last 30 days" sampleEvents eq_refl)
    as (Htrace & _ & _ & Harea).
  split; [exact Htrace|exact Harea].
Defined.

Lemma panel_is_loaded_witness :
  isLoading
    (stateAfter (mounted failing unnamedTestCase sampleEvents)
       (initialState sampleRange "Last 30 days")) = false /\
  isGraphLoading
    (stateAfter (mounted failing unnamedTestCase sampleEvents)
       (initialState sampleRange "Last 30 days")) = false.
Proof.
  destruct (panel_is_loaded_after_mount failing unnamedTestCase sampleThreads
              sampleEvents (initialState sampleRange "Last 30 days") eq_refl)
    as (Hloading & Hgraph & _).
  split; [exact Hloading|exact Hgraph].
Defined.

Lemma stored_details_last_witness :
  DataModelSummary.dataModelDetails (render ∅ true) sampleRenders = someDetails /\
  DataModelSummary.dataModelDetails (render someDetails true) [render ∅ false] =
    someDetails.
Proof.
  assert (Hempty : Forall (fun props : DataModelSummary.Props Object =>
                             isEmpty (DataModelSummary.entityDetails props) = true)
                     [render ∅ false]).
  { repeat constructor. }
  destruct (stored_details_are_the_last_that_were_not_empty (render ∅ true)
              [] (render someDetails false) [render ∅ false] Hempty)
    as [Hlast _].
  destruct (stored_details_are_the_last_that_were_not_empty (render someDetails true)
              [] (render ∅ false) [render ∅ false] Hempty)
    as [_ Hfirst].
  split; [|exact Hfirst]. apply Hlast. vm_compute. reflexivity.
Defined.

Lemma stored_details_stay_filled_witness :
  isEmpty (DataModelSummary.dataModelDetails (render ∅ true) sampleRenders) = false /\
  DataModelSummary.loading (render ∅ false)
    (DataModelSummary.dataModelDetails (render ∅ true) sampleRenders) = false.
Proof.
  destruct (stored_details_stay_filled (render ∅ true)
              [render someDetails false] [render ∅ false] (render ∅ false))
    as [Hfilled Hskeleton].
  - vm_compute. reflexivity.
  - split; [exact Hfilled|exact Hskeleton].
Defined.

Lemma results_come_from_the_end_point_witness :
  results (stateAfter (mounted answering oneParameter sampleEvents)
             (initialState sampleRange "Last 30 days")) = [] \/
  exists params,
    answering "db.orders.total.column_values_between" (pickRange params) =
    Fulfilled
      (results (stateAfter (mounted answering oneParameter sampleEvents)
                  (initialState sampleRange "Last 30 days"))).
Proof.
  exact (results_come_from_the_end_point answering oneParameter sampleEvents
           (initialState sampleRange "Last 30 days")).
Defined.

Lemma parameters_split_witness :
  parameterValuesWithSqlExpression sqlTestCase =
    Some [TestCaseParameterValue.mk (Some "sqlExpression") (Some "SELECT 1")] /\
  parameterValuesWithoutSqlExpression sqlTestCase =
    Some [TestCaseParameterValue.mk (Some "threshold") (Some "0")] /\
  showParameters sqlTestCase = true.
Proof.
  pose proof (parameters_split_by_sqlExpression sqlTestCase) as Hsplit.
  cbn [sqlTestCase sampleTestCase TestCase.parameterValues] in Hsplit.
  destruct Hsplit as (Hsql & Hother & _ & Hshown).
  split; [exact Hsql|]. split; [exact Hother|].
  apply Hshown. eexists. split; [right; left|]; reflexivity.
Defined.

Lemma paramsContainer_witness :
  parametersBlock (paramsContainer sqlTestCase) =
    Some (ParameterRows [ParameterValueView (Some "threshold") "threshold:" (Some "0")]) /\
  Forall isEditorView
    [SqlExpressionView (Some "sqlExpression") "sqlExpression:" "SELECT 1"].
Proof.
  destruct (paramsContainer_never_says_no_parameter sqlTestCase)
    as (_ & _ & Hsql & _).
  split; [reflexivity|]. now apply Hsql.
Defined.

End MoreSamples.
